(** * Findem data pipeline: cleansing, aggregation and quality report

    A shallow embedding of
    - [src/cleansing/data_cleaner.py]  ([DataQualityIssues], [DataCleaner]),
    - [src/transformation/aggregator.py] ([DataAggregator]),
    - [src/pipeline.py] ([DataPipeline._process_chunks],
      [DataPipeline._generate_quality_report]),
    - [src/config/settings.py] (thresholds and synonym tables),
    - [src/ingestion/csv_reader.py] ([ChunkedCSVReader.read_chunks] and the
      counters it keeps).

    Modelling conventions.
    - A pandas [DataFrame] is the list of its rows, each row carrying its
      index label; the columns are the fields of the record [Row].
    - A float64 cell is [option Qc]: [None] is NaN, [Some q] an exact
      rational.  Rounding to two decimals is round-half-to-even on the exact
      value.  Binary floating-point error is outside the model.
    - A Python [int] is a [Z].
    - The quality tally is the Python dict [issues], a [gmap string Z], and
      is threaded through the cleaner as the state of a state monad.
    - The text parsers of pandas ([pd.to_numeric] on a string,
      [pd.to_datetime] with a format) are parameters of the development. *)

From Stdlib Require Import ZArith QArith Qcanon Ascii String DecimalString List Lia.
From stdpp Require Import base decidable option list numbers strings gmap sorting.

Local Open Scope string_scope.
Local Open Scope list_scope.
Local Open Scope Z_scope.

(** ** Numbers *)

Module Num.

Definition of_Z (n : Z) : Qc := Q2Qc (inject_Z n).

(** [n / d] for a positive literal denominator. *)
Definition frac (n : Z) (d : positive) : Qc := Q2Qc (n # d).

Definition leb (x y : Qc) : bool :=
  Qnum x * Zpos (Qden y) <=? Qnum y * Zpos (Qden x).

Definition ltb (x y : Qc) : bool :=
  Qnum x * Zpos (Qden y) <? Qnum y * Zpos (Qden x).

(** Round to the nearest integer, ties to the even one ([numpy.rint],
    the rule behind [Series.round] and Python's [round]). *)
Definition rint (x : Qc) : Z :=
  let n := Qnum x in
  let d := Zpos (Qden x) in
  let f := n / d in
  let r := n mod d in
  match 2 * r ?= d with
  | Lt => f
  | Gt => f + 1
  | Eq => if Z.even f then f else f + 1
  end.

(** [round(x, 2)]. *)
Definition round2 (x : Qc) : Qc :=
  (of_Z (rint (x * of_Z 100)) / of_Z 100)%Qc.

(** [astype(int)]: truncation towards zero. *)
Definition trunc (x : Qc) : Z := Z.quot (Qnum x) (Zpos (Qden x)).

Definition sum (l : list Qc) : Qc := foldr Qcplus (of_Z 0) l.

(** Sum of a float column: NaN cells are skipped. *)
Definition nansum (l : list (option Qc)) : Qc := sum (omap id l).

(** Mean of a float column: NaN cells are skipped, the mean of no value
    is NaN. *)
Definition nanmean (l : list (option Qc)) : option Qc :=
  match omap id l with
  | [] => None
  | v :: vs => Some (sum (v :: vs) / of_Z (Z.of_nat (length (v :: vs))))%Qc
  end.

End Num.

(** ** Python strings *)

Module PyStr.

Definition lower_ascii (c : ascii) : ascii :=
  let n := nat_of_ascii c in
  if (65 <=? n)%nat && (n <=? 90)%nat then ascii_of_nat (n + 32) else c.

(** [str.lower], on ASCII text. *)
Fixpoint lower (s : string) : string :=
  match s with
  | EmptyString => EmptyString
  | String c s' => String (lower_ascii c) (lower s')
  end.

Definition is_space (c : ascii) : bool :=
  let n := nat_of_ascii c in
  ((9 <=? n)%nat && (n <=? 13)%nat) || ((28 <=? n)%nat && (n <=? 32)%nat).

Fixpoint lstrip (s : string) : string :=
  match s with
  | EmptyString => EmptyString
  | String c s' => if is_space c then lstrip s' else s
  end.

Fixpoint rstrip (s : string) : string :=
  match s with
  | EmptyString => EmptyString
  | String c s' =>
      match rstrip s' with
      | EmptyString => if is_space c then EmptyString else String c EmptyString
      | t => String c t
      end
  end.

(** [str.strip]. *)
Definition strip (s : string) : string := rstrip (lstrip s).

(** Comparison of two strings by code point, as Python's [<=] on [str]. *)
Fixpoint leb (s t : string) : bool :=
  match s, t with
  | EmptyString, _ => true
  | String _ _, EmptyString => false
  | String a s', String b t' =>
      let x := nat_of_ascii a in
      let y := nat_of_ascii b in
      if (x <? y)%nat then true
      else if (y <? x)%nat then false
      else leb s' t'
  end.

End PyStr.

(** ** settings.py *)

Module Settings.

Definition MIN_QUANTITY : Qc := Num.of_Z 0.
Definition MAX_QUANTITY : Qc := Num.of_Z 10000.
Definition MIN_PRICE : Qc := Num.frac 1 100.
Definition MAX_PRICE : Qc := Num.of_Z 100000.
Definition MIN_DISCOUNT : Qc := Num.of_Z 0.
Definition MAX_DISCOUNT : Qc := Num.of_Z 100.

Definition REGION_MAPPING : gmap string string :=
  list_to_map
    [ ("north america", "North America"); ("n. america", "North America");
      ("n america", "North America"); ("northamerica", "North America");
      ("na", "North America");
      ("europe", "Europe"); ("eu", "Europe"); ("europa", "Europe");
      ("asia", "Asia"); ("asian", "Asia");
      ("south america", "South America"); ("s. america", "South America");
      ("s america", "South America"); ("southamerica", "South America");
      ("sa", "South America");
      ("africa", "Africa"); ("african", "Africa");
      ("oceania", "Oceania"); ("australia", "Oceania");
      ("pacific", "Oceania") ].

Definition CATEGORY_MAPPING : gmap string string :=
  list_to_map
    [ ("electronics", "Electronics"); ("electronic", "Electronics");
      ("electrnics", "Electronics"); ("elctronics", "Electronics");
      ("clothing", "Clothing"); ("clothes", "Clothing");
      ("apparel", "Clothing"); ("fashion", "Clothing");
      ("home & garden", "Home & Garden"); ("home and garden", "Home & Garden");
      ("home", "Home & Garden"); ("garden", "Home & Garden");
      ("sports", "Sports"); ("sport", "Sports"); ("sporting goods", "Sports");
      ("books", "Books"); ("book", "Books");
      ("toys", "Toys"); ("toy", "Toys"); ("toys & games", "Toys");
      ("food", "Food & Beverage"); ("beverage", "Food & Beverage");
      ("food & beverage", "Food & Beverage") ].

Definition DATE_FORMATS : list string :=
  [ "%Y-%m-%d"; "%m/%d/%Y"; "%d/%m/%Y"; "%Y/%m/%d"; "%m-%d-%Y";
    "%d-%m-%Y"; "%Y%m%d"; "%m/%d/%y"; "%d/%m/%y" ].

End Settings.

(** ** Data model *)

(** A calendar date, the value of a parsed [sale_date]. *)
Record Date := mkDate { year : Z; month : Z; day : Z }.

Global Instance Date_eq_dec : EqDecision Date.
Proof. solve_decision. Defined.

(** A cell of an [object] column ([quantity], [revenue]): text as read from
    the file, a number, or NaN. *)
Inductive Cell :=
| CText (s : string)
| CNum (q : Qc)
| CNaN.

Global Instance Cell_eq_dec : EqDecision Cell.
Proof. solve_decision. Defined.

(** A cell of the [sale_date] column: text as read from the file, a
    timestamp, or NaT. *)
Inductive DateCell :=
| DText (s : string)
| DDate (d : Date)
| DNaT.

Global Instance DateCell_eq_dec : EqDecision DateCell.
Proof. solve_decision. Defined.

(** One row of a sales frame.  [label] is the row's index label, which
    [copy], [drop_duplicates] and [dropna] all preserve. *)
Record Row := mkRow {
  label : Z;
  order_id : option string;
  product_name : option string;
  category : option string;
  quantity : Cell;
  unit_price : option Qc;
  discount_percent : option Qc;
  region : option string;
  sale_date : DateCell;
  revenue : Cell
}.

Global Instance Row_eq_dec : EqDecision Row.
Proof. solve_decision. Defined.

Abbreviation DataFrame := (list Row).

Definition len {A} (df : list A) : Z := Z.of_nat (length df).

(** The numeric value of an [object] cell that holds a number. *)
Definition cell_num (c : Cell) : option Qc :=
  match c with CNum q => Some q | _ => None end.

Definition num_cell (o : option Qc) : Cell :=
  match o with Some q => CNum q | None => CNaN end.

Definition cell_isna (c : Cell) : bool :=
  match c with CNaN => true | _ => false end.

Definition date_isna (c : DateCell) : bool :=
  match c with DNaT => true | _ => false end.

Definition set_quantity (v : Cell) (r : Row) : Row :=
  mkRow (label r) (order_id r) (product_name r) (category r) v
        (unit_price r) (discount_percent r) (region r) (sale_date r) (revenue r).

Definition set_unit_price (v : option Qc) (r : Row) : Row :=
  mkRow (label r) (order_id r) (product_name r) (category r) (quantity r)
        v (discount_percent r) (region r) (sale_date r) (revenue r).

Definition set_discount_percent (v : option Qc) (r : Row) : Row :=
  mkRow (label r) (order_id r) (product_name r) (category r) (quantity r)
        (unit_price r) v (region r) (sale_date r) (revenue r).

Definition set_sale_date (v : DateCell) (r : Row) : Row :=
  mkRow (label r) (order_id r) (product_name r) (category r) (quantity r)
        (unit_price r) (discount_percent r) (region r) v (revenue r).

Definition set_region (v : option string) (r : Row) : Row :=
  mkRow (label r) (order_id r) (product_name r) (category r) (quantity r)
        (unit_price r) (discount_percent r) v (sale_date r) (revenue r).

Definition set_category (v : option string) (r : Row) : Row :=
  mkRow (label r) (order_id r) (product_name r) v (quantity r)
        (unit_price r) (discount_percent r) (region r) (sale_date r) (revenue r).

Definition set_revenue (v : Cell) (r : Row) : Row :=
  mkRow (label r) (order_id r) (product_name r) (category r) (quantity r)
        (unit_price r) (discount_percent r) (region r) (sale_date r) v.

(** ** pandas primitives *)

(** The two text parsers of pandas the cleaner relies on. *)
Class Parsers := {
  (** [pd.to_numeric(s, errors='coerce')] on one string. *)
  to_numeric_text : string → option Qc;
  (** [pd.to_datetime(s, format=fmt, errors='coerce')] on one string. *)
  to_datetime_text : string → string → option Date
}.

Section Pandas.
Context {A K : Type} `{EqDecision K}.

(** [df.drop_duplicates(subset=[key], keep='first')]; [seen] holds the
    keys of the rows already kept. *)
Fixpoint drop_duplicates_from (key : A → K) (seen : list K) (df : list A)
  : list A :=
  match df with
  | [] => []
  | r :: df' =>
      if decide (key r ∈ seen) then drop_duplicates_from key seen df'
      else r :: drop_duplicates_from key (key r :: seen) df'
  end.

Definition drop_duplicates (key : A → K) (df : list A) : list A :=
  drop_duplicates_from key [] df.

(** Stable insertion of [x] into a list ordered by [le] on [key]: [x]
    goes after every element it does not strictly precede. *)
Fixpoint insert_sorted (le : K → K → bool) (key : A → K) (x : A)
    (l : list A) : list A :=
  match l with
  | [] => [x]
  | y :: l' =>
      if le (key y) (key x) then y :: insert_sorted le key x l'
      else x :: l
  end.

(** A stable sort by [key] under the order [le]. *)
Definition sort_by (le : K → K → bool) (key : A → K) (l : list A) : list A :=
  foldr (fun x acc => insert_sorted le key x acc) [] (reverse l).

End Pandas.

(** ** DataQualityIssues *)

(** The dict [self.issues]. *)
Abbreviation Tally := (gmap string Z).

Module DataQualityIssues.

(** [__init__]. *)
Definition init : Tally :=
  list_to_map
    [ ("duplicate_orders", 0); ("invalid_quantity", 0); ("invalid_price", 0);
      ("invalid_discount", 0); ("invalid_date", 0); ("missing_values", 0);
      ("normalized_regions", 0); ("normalized_categories", 0);
      ("total_rows_processed", 0); ("total_rows_cleaned", 0) ].

(** [add_issue]: unknown issue types are ignored. *)
Definition add_issue (issue_type : string) (count : Z) (issues : Tally)
  : Tally :=
  match issues !! issue_type with
  | Some v => <[issue_type := v + count]> issues
  | None => issues
  end.

(** [get_report]: a copy of the dict. *)
Definition get_report (issues : Tally) : Tally := issues.

End DataQualityIssues.

(** ** The cleaner's state monad

    A method of [DataCleaner] reads and updates [self.quality_issues]. *)

Definition Cleaner (A : Type) : Type := Tally → A * Tally.

Global Instance Cleaner_ret : MRet Cleaner := fun A x t => (x, t).

Global Instance Cleaner_bind : MBind Cleaner :=
  fun A B k m t => let '(x, t') := m t in k x t'.

(** [self.quality_issues.add_issue(issue_type, count)]. *)
Definition add_issue (issue_type : string) (count : Z) : Cleaner unit :=
  fun t => (tt, DataQualityIssues.add_issue issue_type count t).

(** [if count > 0: self.quality_issues.add_issue(issue_type, count)]. *)
Definition add_issue_if_positive (issue_type : string) (count : Z)
  : Cleaner unit :=
  if decide (0 < count) then add_issue issue_type count else mret tt.

(** [mask.sum()]: the number of rows a boolean mask selects. *)
Definition mask_sum {A} (mask : A → bool) (df : list A) : Z :=
  len (filter (fun r => mask r = true) df).

(** ** DataCleaner *)

Module DataCleaner.
Section Cleaner.
Context `{Parsers}.

Import Settings.

(** *** [_remove_duplicates] *)
Definition _remove_duplicates (df : DataFrame) : Cleaner DataFrame :=
let initial_count := len df in
let df_dedup := drop_duplicates order_id df in
let duplicates_removed := initial_count - len df_dedup in
add_issue_if_positive "duplicate_orders" duplicates_removed ;;
mret df_dedup.

(** *** [_clean_quantity] *)

(** [pd.to_numeric(., errors='coerce')] on one cell. *)
Definition to_numeric (c : Cell) : option Qc :=
match c with
| CText s => to_numeric_text s
| CNum q => Some q
| CNaN => None
end.

Definition out_of_range (lo hi : Qc) (v : option Qc) : bool :=
match v with
| None => true
| Some q => Num.ltb q lo || Num.ltb hi q
end.

Definition quantity_invalid (r : Row) : bool :=
out_of_range MIN_QUANTITY MAX_QUANTITY (to_numeric (quantity r)).

Definition quantity_row (r : Row) : Row :=
set_quantity
  (if quantity_invalid r then CNaN else num_cell (to_numeric (quantity r)))
  r.

Definition _clean_quantity (df : DataFrame) : Cleaner DataFrame :=
let invalid_count := mask_sum quantity_invalid df in
add_issue_if_positive "invalid_quantity" invalid_count ;;
mret (quantity_row <$> df).

(** *** [_clean_price] *)
Definition price_invalid (r : Row) : bool :=
out_of_range MIN_PRICE MAX_PRICE (unit_price r).

Definition price_row (r : Row) : Row :=
if price_invalid r then set_unit_price None r else r.

Definition _clean_price (df : DataFrame) : Cleaner DataFrame :=
let invalid_count := mask_sum price_invalid df in
add_issue_if_positive "invalid_price" invalid_count ;;
mret (price_row <$> df).

(** *** [_clean_discount] *)
Definition discount_invalid (r : Row) : bool :=
out_of_range MIN_DISCOUNT MAX_DISCOUNT (discount_percent r).

Definition discount_row (r : Row) : Row :=
if discount_invalid r then set_discount_percent (Some (Num.of_Z 0)) r
else r.

Definition _clean_discount (df : DataFrame) : Cleaner DataFrame :=
let invalid_count := mask_sum discount_invalid df in
add_issue_if_positive "invalid_discount" invalid_count ;;
mret (discount_row <$> df).

(** *** [_clean_dates] *)

(** The loop over [DATE_FORMATS], for one text value: each format is
  tried on the values no earlier format has parsed. *)
Fixpoint parse_with (formats : list string) (s : string) : option Date :=
match formats with
| [] => None
| fmt :: formats' =>
    match to_datetime_text fmt s with
    | Some d => Some d
    | None => parse_with formats' s
    end
end.

(** The value of [sale_date_parsed] for one row: a timestamp is kept by
  [pd.to_datetime] whatever the format, a missing value stays [NaT]. *)
Definition parse_date (c : DateCell) : option Date :=
match c with
| DText s => parse_with DATE_FORMATS s
| DDate d => Some d
| DNaT => None
end.

Definition date_cell (o : option Date) : DateCell :=
match o with Some d => DDate d | None => DNaT end.

Definition date_invalid (r : Row) : bool :=
match parse_date (sale_date r) with None => true | Some _ => false end.

Definition date_row (r : Row) : Row :=
set_sale_date (date_cell (parse_date (sale_date r))) r.

Definition _clean_dates (df : DataFrame) : Cleaner DataFrame :=
let invalid_count := mask_sum date_invalid df in
add_issue_if_positive "invalid_date" invalid_count ;;
mret (date_row <$> df).

(** *** [_normalize_region], [_normalize_category] *)

(** [col.str.lower().str.strip().map(mapping)] on one cell. *)
Definition normalized (mapping : gmap string string) (v : option string)
: option string :=
match v with
| Some s => mapping !! PyStr.strip (PyStr.lower s)
| None => None
end.

(** [normalized.notna() & (col != normalized)]. *)
Definition renamed (mapping : gmap string string) (v : option string)
: bool :=
match normalized mapping v with
| Some n => bool_decide (v ≠ Some n)
| None => false
end.

(** [normalized.fillna(col)]. *)
Definition fillna (mapping : gmap string string) (v : option string)
: option string :=
match normalized mapping v with
| Some n => Some n
| None => v
end.

Definition region_row (r : Row) : Row :=
set_region (fillna REGION_MAPPING (region r)) r.

Definition _normalize_region (df : DataFrame) : Cleaner DataFrame :=
let normalized_count :=
  mask_sum (fun r => renamed REGION_MAPPING (region r)) df in
add_issue_if_positive "normalized_regions" normalized_count ;;
mret (region_row <$> df).

Definition category_row (r : Row) : Row :=
set_category (fillna CATEGORY_MAPPING (category r)) r.

Definition _normalize_category (df : DataFrame) : Cleaner DataFrame :=
let normalized_count :=
  mask_sum (fun r => renamed CATEGORY_MAPPING (category r)) df in
add_issue_if_positive "normalized_categories" normalized_count ;;
mret (category_row <$> df).

(** *** [_calculate_revenue] *)

(** [quantity * unit_price * (1 - discount_percent / 100)], NaN as soon
  as one operand is. *)
Definition revenue_formula (q p d : option Qc) : option Qc :=
match q, p, d with
| Some q, Some p, Some d =>
    Some (q * p * (Num.of_Z 1 - d / Num.of_Z 100))%Qc
| _, _, _ => None
end.

Definition revenue_row (r : Row) : Row :=
set_revenue
  (num_cell
     (Num.round2 <$>
        revenue_formula (cell_num (quantity r)) (unit_price r)
          (discount_percent r)))
  r.

Definition _calculate_revenue (df : DataFrame) : Cleaner DataFrame :=
mret (revenue_row <$> df).

(** *** [_handle_missing_values] *)

(** A row [dropna(subset=critical_fields)] keeps. *)
Definition critical_present (r : Row) : bool :=
bool_decide (order_id r ≠ None)
&& negb (cell_isna (quantity r))
&& bool_decide (unit_price r ≠ None)
&& negb (date_isna (sale_date r)).

Definition dropna (df : DataFrame) : DataFrame :=
filter (fun r => critical_present r = true) df.

Definition _handle_missing_values (df : DataFrame) : Cleaner DataFrame :=
let initial_count := len df in
let df_clean := dropna df in
let missing_count := initial_count - len df_clean in
add_issue_if_positive "missing_values" missing_count ;;
mret df_clean.

(** *** [clean_chunk] *)
Definition clean_chunk (df : DataFrame) : Cleaner DataFrame :=
add_issue "total_rows_processed" (len df) ;;
let df_clean := df in
df_clean ← _remove_duplicates df_clean ;
df_clean ← _clean_quantity df_clean ;
df_clean ← _clean_price df_clean ;
df_clean ← _clean_discount df_clean ;
df_clean ← _clean_dates df_clean ;
df_clean ← _normalize_region df_clean ;
df_clean ← _normalize_category df_clean ;
df_clean ← _calculate_revenue df_clean ;
df_clean ← _handle_missing_values df_clean ;
add_issue "total_rows_cleaned" (len df_clean) ;;
mret df_clean.

(** The methods [clean_chunk] calls, in the order of the calls. *)
Definition methods : list (DataFrame → Cleaner DataFrame) :=
[ _remove_duplicates; _clean_quantity; _clean_price; _clean_discount;
  _clean_dates; _normalize_region; _normalize_category;
  _calculate_revenue; _handle_missing_values ].

(** [get_quality_report]. *)
Definition get_quality_report (t : Tally) : Tally :=
DataQualityIssues.get_report t.

End Cleaner.
End DataCleaner.

(** ** More pandas primitives *)

Section Frames.
Context {A K : Type} `{EqDecision K}.

(** The group keys of [df.groupby(key)]: the distinct non-null keys, in
    ascending order. *)
Definition group_keys (le : K → K → bool) (keys : list (option K)) : list K :=
  sort_by le id (drop_duplicates id (omap id keys)).

(** [df.groupby(key)]: each group key with the rows of its group, in the
    order of the frame.  Rows with a null key belong to no group. *)
Definition groupby (le : K → K → bool) (key : A → option K) (df : list A)
  : list (K * list A) :=
  (fun k => (k, filter (fun r => key r = Some k) df))
    <$> group_keys le (key <$> df).

(** [df.nlargest(n, col)] with the default [keep='first']: the rows in
    descending order of [col], rows of equal value in their order of
    appearance, rows whose value is NaN last; the first [n] of them. *)
Definition nlargest (n : Z) (col : A → option Qc) (df : list A) : list A :=
  let valued := omap (fun r => pair r <$> col r) df in
  let missing := filter (fun r => col r = None) df in
  take (Z.to_nat n)
       ((fst <$> sort_by (fun x y => Num.leb y x) snd valued) ++ missing).

End Frames.

(** A Python dict whose order of keys matters: the keys in insertion order. *)
Section PyDict.
Context {V : Type}.

Fixpoint dict_get (d : list (string * V)) (k : string) : option V :=
  match d with
  | [] => None
  | (k', v) :: d' => if decide (k = k') then Some v else dict_get d' k
  end.

(** [d[k] = v]: an existing key keeps its place, a new one goes last. *)
Fixpoint dict_set (k : string) (v : V) (d : list (string * V))
  : list (string * V) :=
  match d with
  | [] => [(k, v)]
  | (k', v') :: d' =>
      if decide (k = k') then (k, v) :: d' else (k', v') :: dict_set k v d'
  end.

End PyDict.

(** Rendering of dates. *)
Module Render.

Definition digits (n : Z) : string :=
  NilZero.string_of_uint (N.to_uint (Z.to_N n)).

(** A number left-padded with zeros to [width] characters. *)
Definition padded (width : nat) (n : Z) : string :=
  let s := digits n in
  String.concat "" (replicate (width - String.length s) "0") +:+ s.

(** [str] of a monthly period, [%Y-%m]; the period is the count of months
    [year * 12 + (month - 1)]. *)
Definition period_str (p : Z) : string :=
  padded 4 (p / 12) +:+ "-" +:+ padded 2 (p mod 12 + 1).

(** [strftime('%Y-%m-%d')]. *)
Definition iso_date (d : Date) : string :=
  padded 4 (year d) +:+ "-" +:+ padded 2 (month d) +:+ "-" +:+ padded 2 (day d).

End Render.

(** ** DataAggregator *)

(** A row of a per-chunk monthly frame. *)
Module MonthlyChunk.
Record t := mk {
  year_month : Z;
  total_revenue : Qc;
  total_quantity : Qc;
  avg_discount : option Qc
}.
End MonthlyChunk.

(** A row of the monthly sales summary. *)
Module MonthlySummary.
Record t := mk {
  year_month : string;
  total_revenue : Qc;
  total_quantity : Z;
  avg_discount : option Qc
}.
End MonthlySummary.

(** A row of [products_df]. *)
Module ProductTotals.
Record t := mk {
  product_name : string;
  total_revenue : Qc;
  total_units_sold : Qc
}.
End ProductTotals.

(** A row of the top-products report. *)
Module TopProduct.
Record t := mk {
  product_name : string;
  total_revenue : Qc;
  total_units_sold : Z;
  rank_by : string
}.
End TopProduct.

Global Instance MonthlyChunk_eq_dec : EqDecision MonthlyChunk.t.
Proof. solve_decision. Defined.
Global Instance MonthlySummary_eq_dec : EqDecision MonthlySummary.t.
Proof. solve_decision. Defined.
Global Instance ProductTotals_eq_dec : EqDecision ProductTotals.t.
Proof. solve_decision. Defined.
Global Instance TopProduct_eq_dec : EqDecision TopProduct.t.
Proof. solve_decision. Defined.

Module DataAggregator.

(** The attributes of a [DataAggregator]. *)
Record t := mk {
  monthly_sales : list (list MonthlyChunk.t);
  product_revenue : list (string * Qc);
  product_units : list (string * Qc);
  all_records : list DataFrame
}.

(** [__init__]. *)
Definition init : t := mk [] [] [] [].

(** [df['sale_date'].dt.to_period('M')]. *)
Definition to_period (r : Row) : option Z :=
  match sale_date r with
  | DDate d => Some (year d * 12 + (month d - 1))
  | _ => None
  end.

Definition revenue_of (r : Row) : option Qc := cell_num (revenue r).
Definition quantity_of (r : Row) : option Qc := cell_num (quantity r).

(** [df.groupby('year_month').agg(...)], one row per month. *)
Definition monthly_chunk (df : DataFrame) : list MonthlyChunk.t :=
  (fun '(k, g) =>
     MonthlyChunk.mk k
       (Num.nansum (revenue_of <$> g))
       (Num.nansum (quantity_of <$> g))
       (Num.nanmean (discount_percent <$> g)))
    <$> groupby Z.leb to_period df.

(** [df.groupby('product_name').agg(...)], one row per product: name,
    revenue, quantity. *)
Definition product_chunk (df : DataFrame) : list (string * Qc * Qc) :=
  (fun '(k, g) =>
     (k, Num.nansum (revenue_of <$> g), Num.nansum (quantity_of <$> g)))
    <$> groupby PyStr.leb product_name df.

(** [d[k] = d.get(k, 0) + v]. *)
Definition accumulate (k : string) (v : Qc) (d : list (string * Qc))
  : list (string * Qc) :=
  dict_set k (default (Num.of_Z 0) (dict_get d k) + v)%Qc d.

(** [process_chunk]. *)
Definition process_chunk (df : DataFrame) (a : t) : t :=
  let monthly := monthly_chunk df in
  let products := product_chunk df in
  let top_chunk := nlargest 1000 revenue_of df in
  mk (monthly_sales a ++ [monthly])
     (foldl (fun d '(p, rev, _) => accumulate p rev d)
            (product_revenue a) products)
     (foldl (fun d '(p, _, units) => accumulate p units d)
            (product_units a) products)
     (all_records a ++ [top_chunk]).

(** The re-aggregation of the per-chunk monthly rows in
    [get_monthly_sales_summary]: sums of the sums, mean of the means. *)
Definition final_monthly (combined : list MonthlyChunk.t)
  : list MonthlyChunk.t :=
  (fun '(k, g) =>
     MonthlyChunk.mk k
       (Num.sum (MonthlyChunk.total_revenue <$> g))
       (Num.sum (MonthlyChunk.total_quantity <$> g))
       (Num.nanmean (MonthlyChunk.avg_discount <$> g)))
    <$> groupby Z.leb (fun m => Some (MonthlyChunk.year_month m)) combined.

(** The casts and roundings of [get_monthly_sales_summary]. *)
Definition monthly_row (m : MonthlyChunk.t) : MonthlySummary.t :=
  MonthlySummary.mk
    (Render.period_str (MonthlyChunk.year_month m))
    (Num.round2 (MonthlyChunk.total_revenue m))
    (Num.trunc (MonthlyChunk.total_quantity m))
    (Num.round2 <$> MonthlyChunk.avg_discount m).

(** [get_monthly_sales_summary]. *)
Definition get_monthly_sales_summary (a : t) : list MonthlySummary.t :=
  match monthly_sales a with
  | [] => []
  | _ =>
      let combined := concat (monthly_sales a) in
      sort_by PyStr.leb MonthlySummary.year_month
        (monthly_row <$> final_monthly combined)
  end.

(** [products_df]; [self.product_units[p]] raises [KeyError] on a
    product that has no units entry. *)
Definition products_df (a : t) : option (list ProductTotals.t) :=
  mapM (fun '(p, rev) =>
          units ← dict_get (product_units a) p;
          Some (ProductTotals.mk p rev units))
       (product_revenue a).

Definition ranked (rank : string) (p : ProductTotals.t)
  : ProductTotals.t * string := (p, rank).

(** The rounding and cast at the end of [get_top_products]. *)
Definition top_product_row (pr : ProductTotals.t * string) : TopProduct.t :=
  TopProduct.mk
    (ProductTotals.product_name pr.1)
    (Num.round2 (ProductTotals.total_revenue pr.1))
    (Num.trunc (ProductTotals.total_units_sold pr.1))
    pr.2.

(** The two rankings of [get_top_products], merged and ordered. *)
Definition rank_products (top_n : Z) (df : list ProductTotals.t)
  : list TopProduct.t :=
  let top_by_revenue :=
    ranked "revenue"
      <$> nlargest top_n (fun p => Some (ProductTotals.total_revenue p)) df in
  let top_by_units :=
    ranked "units"
      <$> nlargest top_n (fun p => Some (ProductTotals.total_units_sold p)) df in
  let top_products := top_by_revenue ++ top_by_units in
  let top_products :=
    drop_duplicates (fun pr => ProductTotals.product_name pr.1) top_products in
  sort_by (fun x y => Num.leb y x) TopProduct.total_revenue
    (top_product_row <$> top_products).

(** [get_top_products]; [None] stands for the [KeyError]. *)
Definition get_top_products (top_n : Z) (a : t)
  : option (list TopProduct.t) :=
  match product_revenue a with
  | [] => Some []
  | _ => rank_products top_n <$> products_df a
  end.

(** [anomalies['sale_date'].dt.strftime('%Y-%m-%d')] on one row. *)
Definition strftime_row (r : Row) : Row :=
  set_sale_date
    (match sale_date r with
     | DDate d => DText (Render.iso_date d)
     | _ => DNaT
     end)
    r.

(** [get_anomaly_records]. *)
Definition get_anomaly_records (top_n : Z) (a : t) : DataFrame :=
  match all_records a with
  | [] => []
  | _ =>
      let combined := concat (all_records a) in
      strftime_row <$> nlargest top_n revenue_of combined
  end.

End DataAggregator.

(** ** ChunkedCSVReader *)

Module ChunkedCSVReader.

Fixpoint chunks_of (fuel : nat) (chunk_size : nat) (rows : DataFrame)
  : list DataFrame :=
  match fuel with
  | O => []
  | S fuel' =>
      match rows with
      | [] => []
      | _ =>
          take chunk_size rows
            :: chunks_of fuel' chunk_size (drop chunk_size rows)
      end
  end.

(** [read_chunks]: the rows of the file in consecutive chunks of
    [chunk_size] rows, the last one possibly shorter.  Every row keeps the
    index label it has in the file. *)
Definition read_chunks (chunk_size : positive) (rows : DataFrame)
  : list DataFrame :=
  chunks_of (length rows) (Pos.to_nat chunk_size) rows.

End ChunkedCSVReader.

(** ** DataPipeline *)

(** Python exceptions the report computation can raise. *)
Inductive PyError := KeyError (k : string) | ZeroDivisionError.

Inductive Result (A : Type) :=
| Ok (a : A)
| Raise (e : PyError).
Arguments Ok {A} a.
Arguments Raise {A} e.

(** A number in the quality report: an [int] or a [float]. *)
Inductive PyNum := PyInt (z : Z) | PyFloat (q : Qc).

Global Instance PyNum_eq_dec : EqDecision PyNum.
Proof. solve_decision. Defined.

Module DataPipeline.

(** [d[k]]. *)
Definition getitem (d : Tally) (k : string) : Result Z :=
  match d !! k with
  | Some v => Ok v
  | None => Raise (KeyError k)
  end.

(** [a / b] on two ints. *)
Definition truediv (a b : Z) : Result Qc :=
  if decide (b = 0) then Raise ZeroDivisionError
  else Ok (Num.of_Z a / Num.of_Z b)%Qc.

(** [round((total_cleaned / total_processed * 100)
           if total_processed > 0 else 0, 2)]. *)
Definition data_quality_score (total_cleaned total_processed : Z)
  : Result PyNum :=
  if decide (0 < total_processed) then
    match truediv total_cleaned total_processed with
    | Ok x => Ok (PyFloat (Num.round2 (x * Num.of_Z 100)))
    | Raise e => Raise e
    end
  else Ok (PyInt 0).

(** [_generate_quality_report]: the dict written to the report file. *)
Definition _generate_quality_report (issues : Tally)
  : Result (gmap string PyNum) :=
  let quality_report := DataCleaner.get_quality_report issues in
  match getitem quality_report "total_rows_processed" with
  | Raise e => Raise e
  | Ok total_processed =>
      match getitem quality_report "total_rows_cleaned" with
      | Raise e => Raise e
      | Ok total_cleaned =>
          let rows_removed := total_processed - total_cleaned in
          match data_quality_score total_cleaned total_processed with
          | Raise e => Raise e
          | Ok score =>
              Ok (<["data_quality_score" := score]>
                    (<["rows_removed" := PyInt rows_removed]>
                       (PyInt <$> quality_report)))
          end
      end
  end.

Section Run.
Context `{Parsers}.

(** One iteration of the loop of [_process_chunks]. *)
Definition process_one (st : Tally * DataAggregator.t) (chunk : DataFrame)
  : Tally * DataAggregator.t :=
  let '(cleaned_chunk, issues) := DataCleaner.clean_chunk chunk st.1 in
  (issues,
   if decide (0 < len cleaned_chunk)
   then DataAggregator.process_chunk cleaned_chunk st.2
   else st.2).

(** [_process_chunks] over the chunks the reader yields. *)
Definition _process_chunks (chunks : list DataFrame)
  (st : Tally * DataAggregator.t) : Tally * DataAggregator.t :=
  foldl process_one st chunks.

(** The state of a fresh pipeline after its chunk loop. *)
Definition run (chunks : list DataFrame) : Tally * DataAggregator.t :=
  _process_chunks chunks (DataQualityIssues.init, DataAggregator.init).

End Run.

End DataPipeline.

(** ** Object identity

    [clean_chunk] with the frames as objects of a store: [copy],
    [drop_duplicates] and [dropna] build a new frame, the column assignments
    of the other methods update the frame they are given. *)

Module Heap.

Abbreviation Store := (gmap nat DataFrame).

Definition Prog (A : Type) : Type :=
  Store * Tally → option (A * (Store * Tally)).

Global Instance Prog_ret : MRet Prog := fun A x s => Some (x, s).

Global Instance Prog_bind : MBind Prog :=
  fun A B k m s =>
    match m s with
    | Some (x, s') => k x s'
    | None => None
    end.

(** The frame an object reference denotes. *)
Definition read (ref : nat) : Prog DataFrame :=
  fun s => df ← s.1 !! ref; Some (df, s).

(** A new object. *)
Definition alloc (df : DataFrame) : Prog nat :=
  fun s => let ref := fresh (dom s.1) in Some (ref, (<[ref := df]> s.1, s.2)).

(** An update in place. *)
Definition write (ref : nat) (df : DataFrame) : Prog unit :=
  fun s => Some (tt, (<[ref := df]> s.1, s.2)).

Definition lift {A} (m : Cleaner A) : Prog A :=
  fun s => let '(x, t) := m s.2 in Some (x, (s.1, t)).

(** A method that returns a new frame. *)
Definition returns_new (method : DataFrame → Cleaner DataFrame) (ref : nat)
  : Prog nat :=
  df ← read ref ;
  df' ← lift (method df) ;
  alloc df'.

(** A method that assigns to columns of its argument and returns it. *)
Definition in_place (method : DataFrame → Cleaner DataFrame) (ref : nat)
  : Prog nat :=
  df ← read ref ;
  df' ← lift (method df) ;
  write ref df' ;;
  mret ref.

(** The objects of [σ] are untouched in [σ']. *)
Definition preserved (σ σ' : Store) : Prop :=
  ∀ r, is_Some (σ !! r) → σ' !! r = σ !! r.

Section Cleaner.
Context `{Parsers}.

Import DataCleaner.

Definition clean_chunk (df : nat) : Prog nat :=
  frame ← read df ;
  lift (add_issue "total_rows_processed" (len frame)) ;;
  df_clean ← returns_new mret df ;
  df_clean ← returns_new _remove_duplicates df_clean ;
  df_clean ← in_place _clean_quantity df_clean ;
  df_clean ← in_place _clean_price df_clean ;
  df_clean ← in_place _clean_discount df_clean ;
  df_clean ← in_place _clean_dates df_clean ;
  df_clean ← in_place _normalize_region df_clean ;
  df_clean ← in_place _normalize_category df_clean ;
  df_clean ← in_place _calculate_revenue df_clean ;
  df_clean ← returns_new _handle_missing_values df_clean ;
  frame ← read df_clean ;
  lift (add_issue "total_rows_cleaned" (len frame)) ;;
  mret df_clean.

End Cleaner.

End Heap.

(** ** A reference instance of the parsers

    Plain decimal integers for [pd.to_numeric], and the ISO form
    [YYYY-MM-DD] under the format [%Y-%m-%d] for [pd.to_datetime]. *)

Module Reference.

Definition all_digits (s : string) : bool :=
  forallb (fun c => let n := nat_of_ascii c in (48 <=? n)%nat && (n <=? 57)%nat)
          (list_ascii_of_string s).

Definition number (s : string) : option Z :=
  if all_digits s && negb (String.length s =? 0)%nat
  then Z.of_N <$> (N.of_uint <$> NilZero.uint_of_string s)
  else None.

Definition parse_number (s : string) : option Qc :=
  Num.of_Z <$> number s.

Definition is_leap (y : Z) : bool :=
  ((y mod 4 =? 0) && negb (y mod 100 =? 0)) || (y mod 400 =? 0).

Definition days_in_month (y m : Z) : Z :=
  if m =? 2 then (if is_leap y then 29 else 28)
  else if (m =? 4) || (m =? 6) || (m =? 9) || (m =? 11) then 30
  else 31.

Definition parse_iso_date (fmt s : string) : option Date :=
  if decide (fmt = "%Y-%m-%d") then
    if (String.length s =? 10)%nat
       && bool_decide (String.substring 4 1 s = "-")
       && bool_decide (String.substring 7 1 s = "-")
    then
      y ← number (String.substring 0 4 s) ;
      m ← number (String.substring 5 2 s) ;
      d ← number (String.substring 8 2 s) ;
      if (1 <=? y) && (1 <=? m) && (m <=? 12)
         && (1 <=? d) && (d <=? days_in_month y m)
      then Some (mkDate y m d) else None
    else None
  else None.

Definition parsers : Parsers :=
  {| to_numeric_text := parse_number;
     to_datetime_text := parse_iso_date |}.

End Reference.

(** * Specification-level definitions *)

Module CleanSpec.
Section Spec.
Context `{Parsers}.

Import DataCleaner.

(** The cell-level rules of [clean_chunk] on one row, in the order the
  methods run. *)
Definition repair_row (r : Row) : Row :=
revenue_row
  (category_row (region_row (date_row (discount_row (price_row
    (quantity_row r)))))).

(** The frame [clean_chunk] returns. *)
Definition cleaned (df : DataFrame) : DataFrame :=
dropna (repair_row <$> drop_duplicates order_id df).

(** The counts [clean_chunk] adds to the tally, in the order of the
  calls. *)
Definition increments (df : DataFrame) : list (string * Z) :=
let df1 := drop_duplicates order_id df in
let df2 := quantity_row <$> df1 in
let df3 := price_row <$> df2 in
let df4 := discount_row <$> df3 in
let df5 := date_row <$> df4 in
let df6 := region_row <$> df5 in
let df7 := category_row <$> df6 in
let df8 := revenue_row <$> df7 in
[ ("total_rows_processed", len df);
  ("duplicate_orders", len df - len df1);
  ("invalid_quantity", mask_sum quantity_invalid df1);
  ("invalid_price", mask_sum price_invalid df2);
  ("invalid_discount", mask_sum discount_invalid df3);
  ("invalid_date", mask_sum date_invalid df4);
  ("normalized_regions",
    mask_sum (fun r => renamed Settings.REGION_MAPPING (region r)) df5);
  ("normalized_categories",
    mask_sum (fun r => renamed Settings.CATEGORY_MAPPING (category r)) df6);
  ("missing_values", len df8 - len (dropna df8));
  ("total_rows_cleaned", len (dropna df8)) ].

(** The amount [increments] adds to the counter [k]. *)
Definition delta (df : DataFrame) (k : string) : Z :=
foldr (fun '(k', c) acc => if String.eqb k' k then c + acc else acc) 0
      (increments df).

(** What holds of the tally at every point of a run. *)
Definition tally_ok (t : Tally) : Prop :=
(∃ p c, t !! "total_rows_processed" = Some p
        ∧ t !! "total_rows_cleaned" = Some c ∧ c ≤ p)
∧ (∀ k v, t !! k = Some v → 0 ≤ v).

(** The four critical fields of a raw row are resolved: the order id is
  present, quantity and price are numbers within their bounds, and the
  date parses. *)
Definition resolved (r : Row) : Prop :=
order_id r ≠ None
∧ quantity_invalid r = false
∧ price_invalid r = false
∧ date_invalid r = false.


(** The property of a row that the cleaner has nothing left to do on. *)
Record Clean (r : Row) : Prop := {
clean_order_id : order_id r ≠ None;
clean_quantity : ∃ q, quantity r = CNum q
                    ∧ out_of_range Settings.MIN_QUANTITY
                        Settings.MAX_QUANTITY (Some q) = false;
clean_price : price_invalid r = false;
clean_discount : discount_invalid r = false;
clean_date : ∃ d, sale_date r = DDate d;
clean_region : normalized Settings.REGION_MAPPING (region r) = None
               ∨ normalized Settings.REGION_MAPPING (region r) = region r;
clean_category :
  normalized Settings.CATEGORY_MAPPING (category r) = None
  ∨ normalized Settings.CATEGORY_MAPPING (category r) = category r;
clean_revenue :
  revenue r
  = num_cell (Num.round2 <$>
                revenue_formula (cell_num (quantity r)) (unit_price r)
                  (discount_percent r))
}.

End Spec.
End CleanSpec.

(** * The whole-file aggregation

    What the reports are over all the clean rows taken at once, with no
    chunking. *)

Module WholeFile.

(** The clean rows of a month. *)
Definition of_month (rows : DataFrame) (k : Z) : DataFrame :=
  filter (fun r => DataAggregator.to_period r = Some k) rows.

(** The clean rows of a product. *)
Definition of_product (rows : DataFrame) (p : string) : DataFrame :=
  filter (fun r => product_name r = Some p) rows.

Definition revenue_sum (rows : DataFrame) : Qc :=
  Num.nansum (DataAggregator.revenue_of <$> rows).

Definition quantity_sum (rows : DataFrame) : Qc :=
  Num.nansum (DataAggregator.quantity_of <$> rows).

(** Month, revenue and quantity of every month, in ascending order of the
    month. *)
Definition monthly_totals (rows : DataFrame) : list (Z * Qc * Qc) :=
  (fun k => (k, revenue_sum (of_month rows k), quantity_sum (of_month rows k)))
    <$> group_keys Z.leb (DataAggregator.to_period <$> rows).



(** The sum of a column over the rows of a product, if it was sold. *)
Definition accumulated (col : Row → option Qc) (rows : DataFrame) (p : string)
  : option Qc :=
  if decide (Some p ∈ product_name <$> rows)
  then Some (Num.nansum (col <$> of_product rows p)) else None.

(** The accumulated revenue and units of a product. *)
Definition product_revenue (rows : DataFrame) (p : string) : option Qc :=
  accumulated DataAggregator.revenue_of rows p.

Definition product_units (rows : DataFrame) (p : string) : option Qc :=
  accumulated DataAggregator.quantity_of rows p.

End WholeFile.


(** Month, revenue and quantity of a row of a per-chunk monthly frame. *)
Definition chunk_totals (m : MonthlyChunk.t) : Z * Qc * Qc :=
  (MonthlyChunk.year_month m, MonthlyChunk.total_revenue m,
   MonthlyChunk.total_quantity m).




(** * Sample data *)

Module Examples.

(** A row as the reader yields it: text quantity and date, numeric price
    and discount, no revenue. *)
Definition sale (lbl : Z) (id product qty : string) (price disc : Z)
    (date : string) : Row :=
  mkRow lbl (Some id) (Some product) (Some "Electronics") (CText qty)
        (Some (Num.of_Z price)) (Some (Num.of_Z disc)) (Some "Europe")
        (DText date) CNaN.

(** The row [sale] turns into once cleaned. *)
Definition sold (lbl : Z) (id product : string) (qty price disc : Z)
    (date : Date) (rev : Z) : Row :=
  mkRow lbl (Some id) (Some product) (Some "Electronics")
        (CNum (Num.of_Z qty)) (Some (Num.of_Z price))
        (Some (Num.of_Z disc)) (Some "Europe") (DDate date)
        (CNum (Num.of_Z rev)).

(** Quantity 10 at price 20 with a discount of 10 percent. *)
Definition ten_at_twenty : Row :=
  sale 0 "ORD00000001" "Laptop Pro 15" "10" 20 10 "2024-01-15".

Definition ten_at_twenty_cleaned : Row :=
  sold 0 "ORD00000001" "Laptop Pro 15" 10 20 10 (mkDate 2024 1 15) 180.

(** The same order id on two rows. *)
Definition repeated_order : Row :=
  sale 1 "ORD00000001" "Wireless Mouse" "3" 50 0 "2024-01-16".

(** Two order ids, each on two rows. *)
Definition two_pairs : DataFrame :=
  [ sale 0 "ORD00000001" "Laptop Pro 15" "10" 20 10 "2024-01-15";
    sale 1 "ORD00000001" "Laptop Pro 15" "10" 20 10 "2024-01-15";
    sale 2 "ORD00000002" "Wireless Mouse" "3" 50 0 "2024-01-16";
    sale 3 "ORD00000002" "Wireless Mouse" "3" 50 0 "2024-01-16" ].

(** A row whose discount is out of range. *)
Definition bad_discount : Row :=
  sale 2 "ORD00000003" "Yoga Mat" "4" 25 150 "2024-02-01".

(** Three orders of one month with discounts 0, 0 and 30. *)
Definition three_discounts : DataFrame :=
  [ sale 0 "ORD00000001" "Yoga Mat" "1" 10 0 "2024-03-01";
    sale 1 "ORD00000002" "Yoga Mat" "1" 10 0 "2024-03-02";
    sale 2 "ORD00000003" "Yoga Mat" "1" 10 30 "2024-03-03" ].




End Examples.

(** * Measures on frames *)


(** A quantity cell after [_clean_quantity]: NaN, or a number within the
    bounds. *)
Definition quantity_settled (c : Cell) : Prop :=
  c = CNaN
  ∨ ∃ q, c = CNum q
         ∧ (Settings.MIN_QUANTITY ≤ q)%Qc ∧ (q ≤ Settings.MAX_QUANTITY)%Qc.

(** A price cell after [_clean_price]. *)
Definition price_settled (c : option Qc) : Prop :=
  c = None
  ∨ ∃ p, c = Some p ∧ (Settings.MIN_PRICE ≤ p)%Qc ∧ (p ≤ Settings.MAX_PRICE)%Qc.

(** A discount cell after [_clean_discount]. *)
Definition discount_settled (c : option Qc) : Prop :=
  ∃ d, c = Some d
       ∧ (Settings.MIN_DISCOUNT ≤ d)%Qc ∧ (d ≤ Settings.MAX_DISCOUNT)%Qc.

(** A date cell after [_clean_dates]: a timestamp or NaT, never text. *)
Definition date_settled (c : DateCell) : Prop :=
  c = DNaT ∨ ∃ d, c = DDate d.

(** * The tally along a run *)

(** The ten counters [DataQualityIssues.__init__] creates. *)
Definition counter_names : list string :=
  [ "duplicate_orders"; "invalid_quantity"; "invalid_price";
    "invalid_discount"; "invalid_date"; "missing_values";
    "normalized_regions"; "normalized_categories";
    "total_rows_processed"; "total_rows_cleaned" ].

(** The counters of the methods that run between [_remove_duplicates] and
    [_handle_missing_values]. *)
Definition checks : list string :=
  [ "invalid_quantity"; "invalid_price"; "invalid_discount"; "invalid_date";
    "normalized_regions"; "normalized_categories" ].

(** Every processed row is cleaned, a duplicate or dropped for a missing
    critical field; and no check counts more rows than deduplication
    left. *)
Definition accounted (t : Tally) : Prop :=
  ∃ p c d m,
    t !! "total_rows_processed" = Some p
    ∧ t !! "total_rows_cleaned" = Some c
    ∧ t !! "duplicate_orders" = Some d
    ∧ t !! "missing_values" = Some m
    ∧ p = c + d + m
    ∧ Forall (fun k => ∃ v, t !! k = Some v ∧ v ≤ p - d) checks.

(** * The monthly summary, row by row *)



(** * Bounded checks *)


(** * The counters of the reader *)

(** The attributes [total_rows] and [chunks_processed] of a
    [ChunkedCSVReader], which [read_chunks] updates at every chunk it
    yields. *)
Module ReaderCounters.

Record t := mk { total_rows : Z; chunks_processed : Z }.

(** [__init__]. *)
Definition init : t := mk 0 0.

(** One iteration of the loop of [read_chunks]. *)
Definition yield_chunk (r : t) (chunk : DataFrame) : t :=
  mk (total_rows r + len chunk) (chunks_processed r + 1).

(** [read_chunks], run to its end: the chunks yielded and the counters
    afterwards. *)
Definition read_chunks (chunk_size : positive) (rows : DataFrame) (r : t)
  : list DataFrame * t :=
  let chunks := ChunkedCSVReader.read_chunks chunk_size rows in
  (chunks, foldl yield_chunk r chunks).

(** [estimate_total_rows]. *)
Definition estimate_total_rows (chunk_size : positive) (rows : DataFrame) : Z :=
  foldl (fun row_count chunk => row_count + len chunk) 0
        (ChunkedCSVReader.read_chunks chunk_size rows).

End ReaderCounters.

(** * Facts about the primitives *)

Section TallyFacts.

Lemma lookup_add_issue (k k' : string) (c : Z) (t : Tally) :
  DataQualityIssues.add_issue k c t !! k'
  = (fun v => if decide (k = k') then v + c else v) <$> t !! k'.
Proof.
  unfold DataQualityIssues.add_issue.
  destruct (t !! k) as [v|] eqn:Hk.
  - rewrite lookup_insert. destruct (decide (k = k')) as [->|Hne].
    + rewrite Hk. reflexivity.
    + destruct (t !! k'); reflexivity.
  - destruct (decide (k = k')) as [->|Hne].
    + rewrite Hk. reflexivity.
    + destruct (t !! k'); reflexivity.
Qed.

Lemma add_issue_zero (k : string) (t : Tally) :
  DataQualityIssues.add_issue k 0 t = t.
Proof.
  apply map_eq. intros k'. rewrite lookup_add_issue.
  destruct (t !! k') as [v|]; simpl; [|reflexivity].
  destruct (decide (k = k')); f_equal; lia.
Qed.

Lemma add_issue_if_positive_eq (k : string) (c : Z) (t : Tally) :
  0 ≤ c →
  add_issue_if_positive k c t = (tt, DataQualityIssues.add_issue k c t).
Proof.
  intros Hc. unfold add_issue_if_positive.
  destruct (decide (0 < c)) as [Hpos|Hnpos]; [reflexivity|].
  assert (c = 0) as -> by lia. rewrite add_issue_zero. reflexivity.
Qed.

Lemma len_nonneg {A} (l : list A) : 0 ≤ len l.
Proof. unfold len. lia. Qed.

Lemma mask_sum_nonneg {A} (mask : A → bool) (df : list A) :
  0 ≤ mask_sum mask df.
Proof. apply len_nonneg. Qed.

Lemma len_filter_le {A} (P : A → Prop) `{∀ x, Decision (P x)} (l : list A) :
  len (filter P l) ≤ len l.
Proof. unfold len. pose proof (length_filter P l). lia. Qed.

End TallyFacts.

Section DropDuplicatesFacts.
Context {A K : Type} `{EqDecision K} (key : A → K).

Lemma drop_duplicates_from_sublist (seen : list K) (l : list A) :
  sublist (drop_duplicates_from key seen l) l.
Proof.
  revert seen. induction l as [|x l IH]; intros seen; simpl.
  - constructor.
  - destruct (decide (key x ∈ seen)).
    + apply sublist_cons, IH.
    + apply sublist_skip, IH.
Qed.

Lemma drop_duplicates_len_le (l : list A) :
  len (drop_duplicates key l) ≤ len l.
Proof.
  unfold len, drop_duplicates.
  pose proof (sublist_length _ _ (drop_duplicates_from_sublist [] l)). lia.
Qed.

Lemma drop_duplicates_from_seen (seen : list K) (l : list A) (x : A) :
  x ∈ drop_duplicates_from key seen l → key x ∉ seen.
Proof.
  revert seen. induction l as [|y l IH]; intros seen; simpl.
  - intros Hx. inversion Hx.
  - destruct (decide (key y ∈ seen)) as [Hin|Hnin].
    + apply IH.
    + intros Hx. apply elem_of_cons in Hx as [->|Hx]; [exact Hnin|].
      apply IH in Hx. intros Hs. apply Hx. right. exact Hs.
Qed.

Lemma drop_duplicates_from_NoDup (seen : list K) (l : list A) :
  NoDup (key <$> drop_duplicates_from key seen l).
Proof.
  revert seen. induction l as [|y l IH]; intros seen; simpl.
  - constructor.
  - destruct (decide (key y ∈ seen)) as [Hin|Hnin]; [apply IH|].
    rewrite fmap_cons. constructor; [|apply IH].
    intros Hy. apply list_elem_of_fmap in Hy as (z & Hz & Hzin).
    apply drop_duplicates_from_seen in Hzin. apply Hzin. rewrite <- Hz. left.
Qed.


(** A frame whose keys are pairwise distinct and unseen has no duplicate
    to drop. *)
Lemma drop_duplicates_from_id (seen : list K) (l : list A) :
  NoDup (key <$> l) →
  (∀ x, x ∈ l → key x ∉ seen) →
  drop_duplicates_from key seen l = l.
Proof.
  revert seen. induction l as [|y l IH]; intros seen Hnd Hs; simpl.
  - reflexivity.
  - rewrite fmap_cons in Hnd. apply NoDup_cons in Hnd as [Hy Hnd].
    destruct (decide (key y ∈ seen)) as [Hin|Hnin].
    + exfalso. apply (Hs y); [left|exact Hin].
    + f_equal. apply IH; [exact Hnd|].
      intros x Hx Hk. apply elem_of_cons in Hk as [Hk|Hk].
      * apply Hy. rewrite <- Hk. apply list_elem_of_fmap. eauto.
      * apply (Hs x); [right; exact Hx|exact Hk].
Qed.

Lemma drop_duplicates_id (l : list A) :
  NoDup (key <$> l) → drop_duplicates key l = l.
Proof.
  intros Hnd. apply drop_duplicates_from_id; [exact Hnd|].
  intros x _ Hx. inversion Hx.
Qed.

(** A row whose key has been seen is dropped wherever it stands. *)
Lemma drop_duplicates_from_skip (seen : list K) (l l' : list A) (x : A) :
  key x ∈ seen →
  drop_duplicates_from key seen (l ++ x :: l')
  = drop_duplicates_from key seen (l ++ l').
Proof.
  revert seen. induction l as [|y l IH]; intros seen Hx; simpl.
  - destruct (decide (key x ∈ seen)); [reflexivity|contradiction].
  - destruct (decide (key y ∈ seen)).
    + apply IH, Hx.
    + f_equal. apply IH. right. exact Hx.
Qed.


(** A row whose key occurs earlier in the frame, or has been seen, is
    dropped. *)
Lemma drop_duplicates_from_later (seen : list K) (l l' : list A) (x : A) :
  key x ∈ seen ∨ key x ∈ (key <$> l) →
  drop_duplicates_from key seen (l ++ x :: l')
  = drop_duplicates_from key seen (l ++ l').
Proof.
  revert seen. induction l as [|y l IH]; intros seen Hx.
  - apply (drop_duplicates_from_skip seen [] l' x).
    destruct Hx as [Hx|Hx]; [exact Hx|inversion Hx].
  - simpl. destruct (decide (key y ∈ seen)) as [Hin|Hnin].
    + apply IH. destruct Hx as [Hx|Hx]; [left; exact Hx|].
      rewrite fmap_cons in Hx. apply elem_of_cons in Hx as [Hx|Hx].
      * left. rewrite Hx. exact Hin.
      * right. exact Hx.
    + f_equal. apply IH. destruct Hx as [Hx|Hx].
      * left. right. exact Hx.
      * rewrite fmap_cons in Hx. apply elem_of_cons in Hx as [Hx|Hx].
        -- left. rewrite Hx. left.
        -- right. exact Hx.
Qed.


End DropDuplicatesFacts.

(** * The cleaner *)

Section CleanerFacts.
Context `{Parsers}.

Import DataCleaner CleanSpec.

(** [clean_chunk] returns the repaired first occurrences that have their
    critical fields, and adds [increments] to the tally. *)
Lemma clean_chunk_eq (df : DataFrame) (t : Tally) :
  clean_chunk df t
  = (cleaned df,
     foldl (fun t '(k, c) => DataQualityIssues.add_issue k c t) t
           (increments df)).
Proof.
  unfold clean_chunk, _remove_duplicates, _clean_quantity, _clean_price,
    _clean_discount, _clean_dates, _normalize_region, _normalize_category,
    _calculate_revenue, _handle_missing_values, add_issue.
  unfold mbind, Cleaner_bind, mret, Cleaner_ret.
  rewrite !add_issue_if_positive_eq;
    try apply mask_sum_nonneg;
    try (pose proof (drop_duplicates_len_le order_id df); lia);
    try (match goal with
         | |- 0 ≤ len ?l - len (dropna ?l) =>
             pose proof (len_filter_le (fun r => critical_present r = true) l);
             unfold dropna; lia
         end).
  unfold cleaned, increments, repair_row. simpl.
  rewrite <- !list_fmap_compose. reflexivity.
Qed.

Lemma clean_chunk_frame (df : DataFrame) (t : Tally) :
  (clean_chunk df t).1 = cleaned df.
Proof. rewrite clean_chunk_eq. reflexivity. Qed.

Lemma foldl_add_issue_lookup (incs : list (string * Z)) (t : Tally)
    (k : string) :
  foldl (fun t '(k, c) => DataQualityIssues.add_issue k c t) t incs !! k
  = (fun v =>
       v + foldr (fun '(k', c) acc => if String.eqb k' k then c + acc else acc)
             0 incs)
      <$> t !! k.
Proof.
  revert t. induction incs as [|[k' c] incs IH]; intros t; simpl.
  - destruct (t !! k); simpl; f_equal; lia.
  - rewrite IH, lookup_add_issue.
    destruct (t !! k) as [v|]; simpl; [|reflexivity].
    destruct (String.eqb_spec k' k), (decide (k' = k));
      try contradiction; f_equal; lia.
Qed.

(** Every counter of the tally moves by [delta]. *)
Lemma clean_chunk_tally (df : DataFrame) (t : Tally) (k : string) :
  (clean_chunk df t).2 !! k = (fun v => v + delta df k) <$> t !! k.
Proof.
  rewrite clean_chunk_eq. cbn [snd]. unfold delta.
  apply foldl_add_issue_lookup.
Qed.

End CleanerFacts.

(** ** The repair of one row *)

Section RowFacts.
Context `{Parsers}.

Import DataCleaner CleanSpec.

Local Arguments out_of_range : simpl never.
Local Arguments normalized : simpl never.
Local Arguments fillna : simpl never.
Local Arguments renamed : simpl never.
Local Arguments parse_date : simpl never.
Local Arguments to_numeric : simpl never.
Local Arguments Num.round2 : simpl never.
Local Arguments revenue_formula : simpl never.

Local Ltac row_crush r :=
  unfold repair_row, revenue_row, category_row, region_row, date_row,
    discount_row, price_row, quantity_row, price_invalid, discount_invalid,
    date_invalid, quantity_invalid;
  destruct r; cbn;
  repeat (case_match; cbn in *; try congruence);
  try reflexivity.

Lemma repair_row_label (r : Row) : label (repair_row r) = label r.
Proof.
  row_crush r.
Qed.

Lemma repair_row_order_id (r : Row) : order_id (repair_row r) = order_id r.
Proof.
  row_crush r.
Qed.

Lemma repair_row_product_name (r : Row) :
  product_name (repair_row r) = product_name r.
Proof.
  row_crush r.
Qed.

Lemma repair_row_quantity (r : Row) :
  quantity (repair_row r)
  = if quantity_invalid r then CNaN else num_cell (to_numeric (quantity r)).
Proof.
  row_crush r.
Qed.

Lemma repair_row_unit_price (r : Row) :
  unit_price (repair_row r)
  = if price_invalid r then None else unit_price r.
Proof.
  row_crush r.
Qed.

Lemma repair_row_discount_percent (r : Row) :
  discount_percent (repair_row r)
  = if discount_invalid r then Some (Num.of_Z 0) else discount_percent r.
Proof.
  row_crush r.
Qed.

Lemma repair_row_sale_date (r : Row) :
  sale_date (repair_row r) = date_cell (parse_date (sale_date r)).
Proof.
  row_crush r.
Qed.

Lemma repair_row_region (r : Row) :
  region (repair_row r) = fillna Settings.REGION_MAPPING (region r).
Proof.
  row_crush r.
Qed.

Lemma repair_row_category (r : Row) :
  category (repair_row r) = fillna Settings.CATEGORY_MAPPING (category r).
Proof.
  row_crush r.
Qed.

(** The revenue of a repaired row is computed from its own repaired
    quantity, price and discount. *)
Lemma repair_row_revenue (r : Row) :
  revenue (repair_row r)
  = num_cell (Num.round2 <$>
                revenue_formula (cell_num (quantity (repair_row r)))
                  (unit_price (repair_row r))
                  (discount_percent (repair_row r))).
Proof. unfold repair_row at 1. reflexivity. Qed.

Lemma critical_present_repair_row (r : Row) :
  critical_present (repair_row r) = true ↔ resolved r.
Proof.
  unfold critical_present, resolved.
  rewrite repair_row_order_id, repair_row_quantity, repair_row_unit_price,
    repair_row_sale_date.
  rewrite !andb_true_iff, !bool_decide_eq_true, !negb_true_iff.
  unfold date_invalid, price_invalid, quantity_invalid.
  destruct (out_of_range _ _ (to_numeric (quantity r))) eqn:Hq;
    destruct (out_of_range _ _ (unit_price r)) eqn:Hp;
    destruct (parse_date (sale_date r)) eqn:Hd;
    destruct (to_numeric (quantity r)) eqn:Hn;
    destruct (unit_price r) eqn:Hu;
    cbn; try (unfold out_of_range in *; discriminate); intuition congruence.
Qed.

(** Every canonical label of a synonym table maps to itself. *)
Lemma region_canonical :
  map_Forall
    (fun _ n => Settings.REGION_MAPPING !! PyStr.strip (PyStr.lower n) = Some n)
    Settings.REGION_MAPPING.
Proof. compute_done. Qed.

Lemma category_canonical :
  map_Forall
    (fun _ n =>
       Settings.CATEGORY_MAPPING !! PyStr.strip (PyStr.lower n) = Some n)
    Settings.CATEGORY_MAPPING.
Proof. compute_done. Qed.

Lemma fillna_settled (mapping : gmap string string) (v : option string) :
  map_Forall
    (fun _ n => mapping !! PyStr.strip (PyStr.lower n) = Some n) mapping →
  normalized mapping (fillna mapping v) = None
  ∨ normalized mapping (fillna mapping v) = fillna mapping v.
Proof.
  intros Hcanon. unfold fillna.
  destruct (normalized mapping v) as [n|] eqn:Hn.
  - right. unfold normalized in *. destruct v as [s|]; [|discriminate].
    apply (Hcanon _ _ Hn).
  - left. exact Hn.
Qed.

Lemma default_discount_valid :
  out_of_range Settings.MIN_DISCOUNT Settings.MAX_DISCOUNT
    (Some (Num.of_Z 0)) = false.
Proof. reflexivity. Qed.

(** A repaired row that has its critical fields is clean. *)
Lemma repair_row_Clean (r : Row) :
  critical_present (repair_row r) = true → Clean (repair_row r).
Proof.
  intros Hc. pose proof Hc as Hres.
  apply critical_present_repair_row in Hres as (Hid & Hq & Hp & Hd).
  split.
  - rewrite repair_row_order_id. exact Hid.
  - rewrite repair_row_quantity, Hq. unfold quantity_invalid in Hq.
    destruct (to_numeric (quantity r)) as [q|] eqn:Hn; [|discriminate].
    exists q. split; [reflexivity|exact Hq].
  - unfold price_invalid in *. rewrite repair_row_unit_price.
    unfold price_invalid. rewrite Hp. exact Hp.
  - unfold discount_invalid. rewrite repair_row_discount_percent.
    destruct (discount_invalid r) eqn:Hdi; [apply default_discount_valid|].
    exact Hdi.
  - rewrite repair_row_sale_date. unfold date_invalid in Hd.
    destruct (parse_date (sale_date r)) as [d|]; [|discriminate].
    exists d. reflexivity.
  - rewrite repair_row_region. apply fillna_settled, region_canonical.
  - rewrite repair_row_category. apply fillna_settled, category_canonical.
  - apply repair_row_revenue.
Qed.

Lemma Clean_not_renamed (mapping : gmap string string) (v : option string) :
  normalized mapping v = None ∨ normalized mapping v = v →
  renamed mapping v = false ∧ fillna mapping v = v.
Proof.
  unfold renamed, fillna. intros [Hn|Hn].
  - rewrite Hn. split; reflexivity.
  - destruct (normalized mapping v) as [n|] eqn:Hv; [|split; reflexivity].
    split; [|exact Hn].
    apply bool_decide_eq_false. intros Hne. apply Hne. symmetry. exact Hn.
Qed.

Section CleanRow.
Context (r : Row) (Hclean : Clean r).

Lemma Clean_quantity_invalid : quantity_invalid r = false.
Proof.
  destruct (clean_quantity r Hclean) as (q & Hq & Hr).
  unfold quantity_invalid. rewrite Hq. exact Hr.
Qed.

Lemma Clean_quantity_row : quantity_row r = r.
Proof.
  unfold quantity_row. rewrite Clean_quantity_invalid.
  destruct (clean_quantity r Hclean) as (q & Hq & Hr).
  replace (num_cell (to_numeric (quantity r))) with (quantity r)
    by (rewrite Hq; reflexivity).
  destruct r; reflexivity.
Qed.

Lemma Clean_price_row : price_row r = r.
Proof. unfold price_row. rewrite (clean_price r Hclean). reflexivity. Qed.

Lemma Clean_discount_row : discount_row r = r.
Proof.
  unfold discount_row. rewrite (clean_discount r Hclean). reflexivity.
Qed.

Lemma Clean_date_invalid : date_invalid r = false.
Proof.
  destruct (clean_date r Hclean) as (d & Hd).
  unfold date_invalid. rewrite Hd. reflexivity.
Qed.

Lemma Clean_date_row : date_row r = r.
Proof.
  destruct (clean_date r Hclean) as (d & Hd).
  unfold date_row.
  replace (date_cell (parse_date (sale_date r))) with (sale_date r)
    by (rewrite Hd; reflexivity).
  destruct r; reflexivity.
Qed.

Lemma Clean_region_row : region_row r = r.
Proof.
  unfold region_row.
  destruct (Clean_not_renamed _ _ (clean_region r Hclean)) as [_ ->].
  destruct r; reflexivity.
Qed.

Lemma Clean_category_row : category_row r = r.
Proof.
  unfold category_row.
  destruct (Clean_not_renamed _ _ (clean_category r Hclean)) as [_ ->].
  destruct r; reflexivity.
Qed.

Lemma Clean_revenue_row : revenue_row r = r.
Proof.
  unfold revenue_row. rewrite <- (clean_revenue r Hclean).
  destruct r; reflexivity.
Qed.

Lemma Clean_critical_present : critical_present r = true.
Proof.
  unfold critical_present.
  destruct (clean_quantity r Hclean) as (q & Hq & _).
  destruct (clean_date r Hclean) as (d & Hd).
  pose proof (clean_price r Hclean) as Hp. unfold price_invalid in Hp.
  rewrite Hq, Hd. cbn.
  rewrite !andb_true_iff, !bool_decide_eq_true.
  repeat split; [apply (clean_order_id r Hclean)|].
  destruct (unit_price r); [discriminate|]. discriminate.
Qed.

End CleanRow.

End RowFacts.

(** ** Frames of clean rows *)

Section FrameFacts.
Context `{Parsers}.

Import DataCleaner CleanSpec.

Lemma elem_of_cleaned (df : DataFrame) (r : Row) :
  r ∈ cleaned df
  ↔ ∃ r0, r0 ∈ drop_duplicates order_id df
          ∧ r = repair_row r0 ∧ critical_present r = true.
Proof.
  unfold cleaned, dropna. rewrite list_elem_of_filter, list_elem_of_fmap.
  split.
  - intros (Hc & r0 & -> & Hr0). exists r0. auto.
  - intros (r0 & Hr0 & -> & Hc). split; [exact Hc|]. exists r0. auto.
Qed.

Lemma cleaned_Clean (df : DataFrame) : Forall Clean (cleaned df).
Proof.
  apply Forall_forall. intros r Hr.
  apply elem_of_cleaned in Hr as (r0 & _ & -> & Hc).
  apply repair_row_Clean, Hc.
Qed.

Lemma cleaned_NoDup (df : DataFrame) : NoDup (order_id <$> cleaned df).
Proof.
  unfold cleaned, dropna.
  assert (Hids : ∀ l : DataFrame,
             order_id <$> filter (fun r => critical_present r = true)
                                  (repair_row <$> l)
             = order_id
                 <$> filter (fun r => critical_present (repair_row r) = true) l).
  { induction l as [|x l IH]; [reflexivity|].
    rewrite fmap_cons, !filter_cons.
    destruct (decide (critical_present (repair_row x) = true)).
    - rewrite !fmap_cons, IH, repair_row_order_id. reflexivity.
    - exact IH. }
  rewrite Hids.
  eapply sublist_NoDup; [apply (drop_duplicates_from_NoDup order_id [] df)|].
  apply fmap_sublist, sublist_filter.
Qed.

Lemma cleaned_len_le (df : DataFrame) : len (cleaned df) ≤ len df.
Proof.
  unfold cleaned, dropna.
  pose proof (len_filter_le (fun r => critical_present r = true)
                (repair_row <$> drop_duplicates order_id df)) as H1.
  pose proof (drop_duplicates_len_le order_id df) as H2.
  unfold len in *. rewrite length_fmap in H1. lia.
Qed.

Lemma fmap_fixed {A} (f : A → A) (l : list A) :
  Forall (fun x => f x = x) l → f <$> l = l.
Proof.
  induction 1 as [|x l Hx _ IH]; [reflexivity|].
  rewrite fmap_cons, Hx, IH. reflexivity.
Qed.

Lemma mask_sum_zero {A} (mask : A → bool) (l : list A) :
  Forall (fun x => mask x = false) l → mask_sum mask l = 0.
Proof.
  intros Hall. unfold mask_sum.
  replace (filter (fun r => mask r = true) l) with (@nil A); [reflexivity|].
  symmetry. induction Hall as [|x l Hx _ IH]; [reflexivity|].
  rewrite filter_cons, IH.
  destruct (decide (mask x = true)) as [Ht|]; [congruence|reflexivity].
Qed.

Lemma dropna_Clean (l : DataFrame) : Forall Clean l → dropna l = l.
Proof.
  intros Hall. unfold dropna.
  induction Hall as [|x l Hx _ IH]; [reflexivity|].
  rewrite filter_cons, IH.
  destruct (decide (critical_present x = true)) as [|Hn]; [reflexivity|].
  exfalso. apply Hn, Clean_critical_present, Hx.
Qed.

(** On a frame of clean rows with distinct order ids, every method of the
    cleaner is the identity and every mask is empty. *)
Lemma increments_Clean (l : DataFrame) :
  Forall Clean l → NoDup (order_id <$> l) →
  cleaned l = l
  ∧ increments l
    = [ ("total_rows_processed", len l); ("duplicate_orders", 0);
        ("invalid_quantity", 0); ("invalid_price", 0);
        ("invalid_discount", 0); ("invalid_date", 0);
        ("normalized_regions", 0); ("normalized_categories", 0);
        ("missing_values", 0); ("total_rows_cleaned", len l) ].
Proof.
  intros Hall Hnd. unfold cleaned, increments, repair_row.
  rewrite (drop_duplicates_id order_id l Hnd).
  assert (Hq : quantity_row <$> l = l).
  { apply fmap_fixed. eapply Forall_impl; [exact Hall|].
    intros r Hr. apply Clean_quantity_row, Hr. }
  assert (Hp : price_row <$> l = l).
  { apply fmap_fixed. eapply Forall_impl; [exact Hall|].
    intros r Hr. apply Clean_price_row, Hr. }
  assert (Hd : discount_row <$> l = l).
  { apply fmap_fixed. eapply Forall_impl; [exact Hall|].
    intros r Hr. apply Clean_discount_row, Hr. }
  assert (Ht : date_row <$> l = l).
  { apply fmap_fixed. eapply Forall_impl; [exact Hall|].
    intros r Hr. apply Clean_date_row, Hr. }
  assert (Hr : region_row <$> l = l).
  { apply fmap_fixed. eapply Forall_impl; [exact Hall|].
    intros r Hr. apply Clean_region_row, Hr. }
  assert (Hc : category_row <$> l = l).
  { apply fmap_fixed. eapply Forall_impl; [exact Hall|].
    intros r Hr'. apply Clean_category_row, Hr'. }
  assert (Hv : revenue_row <$> l = l).
  { apply fmap_fixed. eapply Forall_impl; [exact Hall|].
    intros r Hr'. apply Clean_revenue_row, Hr'. }
  assert (Hall7 : (fun r => revenue_row (category_row (region_row (date_row
                      (discount_row (price_row (quantity_row r)))))))
                  <$> l = l).
  { apply fmap_fixed. eapply Forall_impl; [exact Hall|].
    intros r Hr'. cbn beta.
    rewrite (Clean_quantity_row r Hr'), (Clean_price_row r Hr'),
      (Clean_discount_row r Hr'), (Clean_date_row r Hr'),
      (Clean_region_row r Hr'), (Clean_category_row r Hr').
    apply Clean_revenue_row, Hr'. }
  split.
  - rewrite Hall7. apply dropna_Clean, Hall.
  - cbn zeta. rewrite Hq, Hp, Hd, Ht, Hr, Hc, Hv, (dropna_Clean l Hall).
    rewrite !mask_sum_zero.
    + repeat f_equal; lia.
    + eapply Forall_impl; [exact Hall|]. intros r Hr'.
      apply (Clean_not_renamed _ _ (clean_category r Hr')).
    + eapply Forall_impl; [exact Hall|]. intros r Hr'.
      apply (Clean_not_renamed _ _ (clean_region r Hr')).
    + eapply Forall_impl; [exact Hall|]. intros r Hr'.
      apply Clean_date_invalid, Hr'.
    + eapply Forall_impl; [exact Hall|]. intros r Hr'.
      apply (clean_discount r Hr').
    + eapply Forall_impl; [exact Hall|]. intros r Hr'.
      apply (clean_price r Hr').
    + eapply Forall_impl; [exact Hall|]. intros r Hr'.
      apply Clean_quantity_invalid, Hr'.
Qed.

Lemma increments_nonneg (df : DataFrame) :
  Forall (fun kc => 0 ≤ kc.2) (increments df).
Proof.
  unfold increments. cbn zeta.
  repeat (apply Forall_cons_2; [cbn [snd]|]); try apply Forall_nil_2;
    try apply mask_sum_nonneg; try apply len_nonneg.
  - pose proof (drop_duplicates_len_le order_id df). lia.
  - match goal with
    | |- 0 ≤ len ?l - len (dropna ?l) =>
        pose proof (len_filter_le (fun r => critical_present r = true) l)
    end.
    unfold dropna. lia.
Qed.

Lemma delta_nonneg (df : DataFrame) (k : string) : 0 ≤ delta df k.
Proof.
  unfold delta. pose proof (increments_nonneg df) as Hall.
  induction Hall as [|[k' c] l Hc _ IH]; simpl in *.
  - lia.
  - destruct (String.eqb k' k); [apply Z.add_nonneg_nonneg|]; assumption.
Qed.

Lemma delta_processed (df : DataFrame) :
  delta df "total_rows_processed" = len df.
Proof.
  unfold delta, increments.
  cbn [foldr String.eqb Ascii.eqb Bool.eqb andb]. lia.
Qed.

Lemma delta_cleaned (df : DataFrame) :
  delta df "total_rows_cleaned" = len (cleaned df).
Proof.
  unfold delta, increments, cleaned, repair_row.
  cbn [foldr String.eqb Ascii.eqb Bool.eqb andb].
  rewrite <- !list_fmap_compose. unfold compose. lia.
Qed.

Lemma delta_duplicates (df : DataFrame) :
  delta df "duplicate_orders" = len df - len (drop_duplicates order_id df).
Proof.
  unfold delta, increments.
  cbn [foldr String.eqb Ascii.eqb Bool.eqb andb]. lia.
Qed.

End FrameFacts.

(** * The cleaner: claims *)

Section CleanerClaims.
Context `{Parsers}.

Import DataCleaner CleanSpec.

(** C6. The frame [clean_chunk] returns depends on the input batch only:
    two runs on the same batch from two different tallies return the same
    cleaned batch. *)
Theorem C6_clean_chunk_ignores_tally (df : DataFrame) (t1 t2 : Tally) :
  (clean_chunk df t1).1 = (clean_chunk df t2).1.
Proof. rewrite !clean_chunk_frame. reflexivity. Qed.



(** *** The tally along a run *)

Lemma add_issue_mono (k : string) (c : Z) (t : Tally) (k' : string) (v : Z) :
  0 ≤ c → t !! k' = Some v →
  ∃ v', DataQualityIssues.add_issue k c t !! k' = Some v' ∧ v ≤ v'.
Proof.
  intros Hc Hv. rewrite lookup_add_issue, Hv. cbn.
  destruct (decide (k = k')); eexists; split; try reflexivity; lia.
Qed.

Lemma add_issue_if_positive_mono (k : string) (c : Z) (t : Tally)
    (k' : string) (v : Z) :
  t !! k' = Some v →
  ∃ v', (add_issue_if_positive k c t).2 !! k' = Some v' ∧ v ≤ v'.
Proof.
  intros Hv. unfold add_issue_if_positive.
  destruct (decide (0 < c)) as [Hpos|Hnpos].
  - apply add_issue_mono; [lia|exact Hv].
  - exists v. split; [exact Hv|lia].
Qed.

Lemma then_ret_tally {A} (m : Cleaner unit) (x : A) (t : Tally) :
  ((m ;; mret x) t).2 = (m t).2.
Proof.
  unfold mbind, Cleaner_bind, mret, Cleaner_ret.
  destruct (m t). reflexivity.
Qed.

Lemma then_ret_frame {A} (m : Cleaner unit) (x : A) (t : Tally) :
  ((m ;; mret x) t).1 = x.
Proof.
  unfold mbind, Cleaner_bind, mret, Cleaner_ret.
  destruct (m t). reflexivity.
Qed.

(** No method of the cleaner lowers a counter. *)
Lemma methods_mono (m : DataFrame → Cleaner DataFrame) :
  m ∈ methods →
  ∀ (df : DataFrame) (t : Tally) (k : string) (v : Z),
    t !! k = Some v → ∃ v', (m df t).2 !! k = Some v' ∧ v ≤ v'.
Proof.
  unfold methods. intros Hm df t k v Hv.
  repeat (apply elem_of_cons in Hm as [->|Hm]);
    [..|inversion Hm];
    try unfold _remove_duplicates; try unfold _clean_quantity;
    try unfold _clean_price; try unfold _clean_discount;
    try unfold _clean_dates; try unfold _normalize_region;
    try unfold _normalize_category; try unfold _handle_missing_values;
    cbn zeta;
    try (rewrite then_ret_tally; apply add_issue_if_positive_mono; exact Hv).
  exists v. split; [exact Hv|lia].
Qed.

Lemma clean_chunk_mono (df : DataFrame) (t : Tally) (k : string) (v : Z) :
  t !! k = Some v →
  ∃ v', (clean_chunk df t).2 !! k = Some v' ∧ v ≤ v'.
Proof.
  intros Hv. rewrite clean_chunk_tally, Hv.
  exists (v + delta df k). split; [reflexivity|].
  pose proof (delta_nonneg df k). lia.
Qed.

Lemma tally_ok_init : tally_ok DataQualityIssues.init.
Proof.
  split.
  - exists 0, 0. repeat split; [reflexivity..|lia].
  - assert (Hall : map_Forall (fun _ v => 0 ≤ v) DataQualityIssues.init)
      by compute_done.
    intros k v Hv. apply (Hall k v Hv).
Qed.

Lemma tally_ok_clean_chunk (df : DataFrame) (t : Tally) :
  tally_ok t → tally_ok (clean_chunk df t).2.
Proof.
  intros [(p & c & Hp & Hc & Hle) Hnn]. split.
  - exists (p + len df), (c + len (cleaned df)).
    rewrite !clean_chunk_tally, Hp, Hc, delta_processed, delta_cleaned.
    repeat split; [reflexivity..|].
    pose proof (cleaned_len_le df). lia.
  - intros k v. rewrite clean_chunk_tally.
    destruct (t !! k) as [v0|] eqn:Hv0; [|discriminate].
    intros Hv. injection Hv as <-. specialize (Hnn k v0 Hv0).
    pose proof (delta_nonneg df k). lia.
Qed.

Lemma process_chunks_tally (chunks : list DataFrame)
    (st : Tally * DataAggregator.t) :
  (DataPipeline._process_chunks chunks st).1
  = foldl (fun t chunk => (clean_chunk chunk t).2) st.1 chunks.
Proof.
  unfold DataPipeline._process_chunks. revert st.
  induction chunks as [|chunk chunks IH]; intros st; [reflexivity|].
  cbn [foldl]. rewrite IH. unfold DataPipeline.process_one.
  destruct (clean_chunk chunk st.1). reflexivity.
Qed.

(** C5. Along a run of the pipeline over any sequence of batches, after
    each batch [total_rows_cleaned ≤ total_rows_processed], every counter
    of the tally is non-negative, no counter is lower after further
    batches than before them, and no method of the cleaner lowers a
    counter. *)
Theorem C5_tally_invariants (chunks more : list DataFrame) :
  let t := (DataPipeline.run chunks).1 in
  let t' := (DataPipeline.run (chunks ++ more)).1 in
  (∃ p c, t !! "total_rows_processed" = Some p
          ∧ t !! "total_rows_cleaned" = Some c ∧ c ≤ p)
  ∧ (∀ k v, t !! k = Some v → 0 ≤ v)
  ∧ (∀ k v, t !! k = Some v → ∃ v', t' !! k = Some v' ∧ v ≤ v')
  ∧ (∀ m, m ∈ methods →
       ∀ (df : DataFrame) (t0 : Tally) (k : string) (v : Z),
         t0 !! k = Some v → ∃ v', (m df t0).2 !! k = Some v' ∧ v ≤ v').
Proof.
  cbn zeta. unfold DataPipeline.run.
  assert (Hok : ∀ chunks t, tally_ok t →
            tally_ok (foldl (fun t chunk => (clean_chunk chunk t).2) t chunks)).
  { clear. intros chunks. induction chunks as [|chunk chunks IH];
      intros t Ht; [exact Ht|].
    cbn [foldl]. apply IH, tally_ok_clean_chunk, Ht. }
  assert (Hmono : ∀ chunks t k v, t !! k = Some v →
            ∃ v', foldl (fun t chunk => (clean_chunk chunk t).2) t chunks !! k
                  = Some v' ∧ v ≤ v').
  { clear. intros chunks. induction chunks as [|chunk chunks IH];
      intros t k v Hv.
    - exists v. split; [exact Hv|lia].
    - cbn [foldl].
      destruct (clean_chunk_mono chunk t k v Hv) as (v1 & Hv1 & Hle1).
      destruct (IH _ k v1 Hv1) as (v2 & Hv2 & Hle2).
      exists v2. split; [exact Hv2|lia]. }
  rewrite !process_chunks_tally. cbn [fst].
  destruct (Hok chunks _ tally_ok_init) as [Hcp Hnn].
  split; [exact Hcp|]. split; [exact Hnn|]. split.
  - intros k v Hv. rewrite foldl_app. apply Hmono, Hv.
  - intros m Hm. apply methods_mono, Hm.
Qed.

(** *** Cleaning a clean batch *)

(** C2 (amended). Cleaning a batch that is the output of a cleaning
    returns it unchanged and leaves every counter other than the two row
    totals at its value; [total_rows_processed] and [total_rows_cleaned]
    each grow by the number of rows of the batch. *)
Theorem C2_cleaning_a_clean_batch (df0 : DataFrame) (t0 t : Tally) :
  let B := (clean_chunk df0 t0).1 in
  (clean_chunk B t).1 = B
  ∧ (∀ k, k ≠ "total_rows_processed" ∧ k ≠ "total_rows_cleaned" →
          (clean_chunk B t).2 !! k = t !! k)
  ∧ (clean_chunk B t).2 !! "total_rows_processed"
    = (fun v => v + len B) <$> t !! "total_rows_processed"
  ∧ (clean_chunk B t).2 !! "total_rows_cleaned"
    = (fun v => v + len B) <$> t !! "total_rows_cleaned".
Proof.
  cbn zeta. rewrite (clean_chunk_frame df0 t0).
  destruct (increments_Clean (cleaned df0) (cleaned_Clean df0)
              (cleaned_NoDup df0)) as [Hfix Hincs].
  split; [rewrite clean_chunk_frame; exact Hfix|].
  split; [|split].
  - intros k [Hk1 Hk2]. rewrite clean_chunk_tally.
    unfold delta. rewrite Hincs. cbn [foldr].
    repeat match goal with
           | |- context [String.eqb ?a k] =>
               destruct (String.eqb_spec a k) as [<-|_]
           end;
      cbn [String.eqb Ascii.eqb Bool.eqb andb];
      try (exfalso; apply Hk1; reflexivity);
      try (exfalso; apply Hk2; reflexivity);
      match goal with |- _ <$> ?o = _ => destruct o as [v|] end;
      cbn [fmap option_fmap option_map]; f_equal; lia.
  - rewrite clean_chunk_tally, delta_processed. reflexivity.
  - rewrite clean_chunk_tally, delta_cleaned, Hfix. reflexivity.
Qed.

(** *** Which records survive *)


(** *** Duplicate order ids *)

(** The [duplicate_orders] counter grows by the number of rows dropped as
    later duplicates. *)
Lemma duplicate_orders_tally (df : DataFrame) (t : Tally) :
  (clean_chunk df t).2 !! "duplicate_orders"
  = (fun v => v + (len df - len (drop_duplicates order_id df)))
      <$> t !! "duplicate_orders".
Proof. rewrite clean_chunk_tally, delta_duplicates. reflexivity. Qed.

(** C8 (amended). In a batch where one order id is on exactly two rows
    and every other order id on one, the later of the two rows is dropped
    and nothing else: the cleaned batch is that of the batch without the
    later row, and [duplicate_orders] grows by exactly 1. *)
Theorem C8_one_duplicated_order (l1 l2 l3 : DataFrame) (r1 r2 : Row)
    (t : Tally) :
  order_id r2 = order_id r1 →
  NoDup (order_id <$> l1 ++ r1 :: l2 ++ l3) →
  let df := l1 ++ r1 :: l2 ++ r2 :: l3 in
  drop_duplicates order_id df = l1 ++ r1 :: l2 ++ l3
  ∧ (clean_chunk df t).1 = (clean_chunk (l1 ++ r1 :: l2 ++ l3) t).1
  ∧ (clean_chunk df t).2 !! "duplicate_orders"
    = (fun v => v + 1) <$> t !! "duplicate_orders".
Proof.
  intros Hid Hnd. cbn zeta.
  assert (Hdedup : drop_duplicates order_id (l1 ++ r1 :: l2 ++ r2 :: l3)
                   = l1 ++ r1 :: l2 ++ l3).
  { unfold drop_duplicates.
    replace (l1 ++ r1 :: l2 ++ r2 :: l3) with ((l1 ++ r1 :: l2) ++ r2 :: l3)
      by (rewrite <- app_assoc; reflexivity).
    rewrite drop_duplicates_from_later.
    - rewrite <- app_assoc. cbn [app].
      apply (drop_duplicates_id order_id), Hnd.
    - right. rewrite Hid, fmap_app, fmap_cons.
      apply elem_of_app. right. left. }
  split; [exact Hdedup|]. split.
  - rewrite !clean_chunk_frame. unfold cleaned.
    rewrite Hdedup, (drop_duplicates_id order_id _ Hnd). reflexivity.
  - rewrite duplicate_orders_tally, Hdedup.
    replace (len (l1 ++ r1 :: l2 ++ r2 :: l3) - len (l1 ++ r1 :: l2 ++ l3))
      with 1; [reflexivity|].
    unfold len. rewrite !length_app. cbn [length]. rewrite !length_app.
    cbn [length]. lia.
Qed.

End CleanerClaims.

(** C2, the claim as stated fails: cleaning the clean one-row batch a
    second time raises [total_rows_processed] from 1 to 2. *)
Lemma C2_counterexample :
  let B0 := [Examples.ten_at_twenty] in
  let B := (@DataCleaner.clean_chunk Reference.parsers B0
              DataQualityIssues.init).1 in
  let t := (@DataCleaner.clean_chunk Reference.parsers B0
              DataQualityIssues.init).2 in
  B = [Examples.ten_at_twenty_cleaned]
  ∧ t !! "total_rows_processed" = Some 1
  ∧ (@DataCleaner.clean_chunk Reference.parsers B t).2
      !! "total_rows_processed" = Some 2.
Proof. cbn zeta. repeat split; compute_done. Qed.


(** C8, the claim as stated fails: the order id [ORD00000001] is on exactly
    two rows of the batch, and [duplicate_orders] grows by 2. *)
Lemma C8_counterexample :
  length (filter (fun r => order_id r = Some "ORD00000001") Examples.two_pairs)
  = 2%nat
  ∧ DataQualityIssues.init !! "duplicate_orders" = Some 0
  ∧ (@DataCleaner.clean_chunk Reference.parsers Examples.two_pairs
       DataQualityIssues.init).2 !! "duplicate_orders" = Some 2.
Proof. repeat split; compute_done. Qed.


(** One order id on two rows of a batch of three. *)
Lemma C8_one_duplicated_order_witness :
  let l1 := [] in
  let l2 := [Examples.bad_discount] in
  let l3 := [] in
  let r1 := Examples.ten_at_twenty in
  let r2 := Examples.repeated_order in
  let t := DataQualityIssues.init in
  let df := l1 ++ r1 :: l2 ++ r2 :: l3 in
  drop_duplicates order_id df = l1 ++ r1 :: l2 ++ l3
  ∧ (@DataCleaner.clean_chunk Reference.parsers df t).1
    = (@DataCleaner.clean_chunk Reference.parsers (l1 ++ r1 :: l2 ++ l3) t).1
  ∧ (@DataCleaner.clean_chunk Reference.parsers df t).2 !! "duplicate_orders"
    = (fun v => v + 1) <$> t !! "duplicate_orders".
Proof.
  cbn zeta.
  apply (@C8_one_duplicated_order Reference.parsers [] [Examples.bad_discount]
           [] Examples.ten_at_twenty Examples.repeated_order);
    compute_done.
Defined.


(** * The quality report *)

Section ReportClaims.

Import DataPipeline.

Lemma data_quality_score_total (total_cleaned total_processed : Z) :
  data_quality_score total_cleaned total_processed
  = Ok (if decide (0 < total_processed)
        then PyFloat (Num.round2
                        (Num.of_Z total_cleaned / Num.of_Z total_processed
                         * Num.of_Z 100)%Qc)
        else PyInt 0).
Proof.
  unfold data_quality_score, truediv.
  destruct (decide (0 < total_processed)) as [Hpos|Hnpos]; [|reflexivity].
  destruct (decide (total_processed = 0)) as [Hz|Hnz]; [lia|reflexivity].
Qed.

(** The tally of every run has its report. *)
Lemma run_quality_report `{Parsers} (chunks : list DataFrame) :
  ∃ report, _generate_quality_report (run chunks).1 = Ok report.
Proof.
  assert (Hok : CleanSpec.tally_ok (run chunks).1).
  { unfold run. rewrite process_chunks_tally. cbn [fst].
    generalize DataQualityIssues.init, tally_ok_init. revert chunks.
    induction chunks as [|chunk chunks IH]; intros t Ht; [exact Ht|].
    cbn [foldl]. apply IH, tally_ok_clean_chunk, Ht. }
  destruct Hok as [(p & c & Hp & Hc & _) _].
  unfold _generate_quality_report, getitem,
    DataCleaner.get_quality_report, DataQualityIssues.get_report.
  rewrite Hp, Hc, data_quality_score_total. eexists. reflexivity.
Qed.


End ReportClaims.


(** * The aggregator before any batch *)

Section EmptyAggregator.
Context `{Parsers}.

(** A run whose batches all clean to nothing absorbs no batch. *)
Lemma run_absorbs_nothing (chunks : list DataFrame)
    (st : Tally * DataAggregator.t) :
  (∀ chunk t, chunk ∈ chunks → (DataCleaner.clean_chunk chunk t).1 = []) →
  (DataPipeline._process_chunks chunks st).2 = st.2.
Proof.
  unfold DataPipeline._process_chunks. revert st.
  induction chunks as [|chunk chunks IH]; intros st Hall; [reflexivity|].
  cbn [foldl]. rewrite IH.
  - unfold DataPipeline.process_one.
    pose proof (Hall chunk st.1 (list_elem_of_here _ _)) as Hempty.
    destruct (DataCleaner.clean_chunk chunk st.1) as [cleaned issues].
    cbn in Hempty. subst cleaned. reflexivity.
  - intros c t Hc. apply Hall. right. exact Hc.
Qed.

(** C9. With no batch absorbed, the monthly summary, the top products and
    the anomaly records are each the empty result, and no exception is
    raised; this is the state of the aggregator of a fresh pipeline and
    of a pipeline whose batches all cleaned to nothing. *)
Theorem C9_nothing_absorbed (top_n top_k : Z) :
  DataAggregator.get_monthly_sales_summary DataAggregator.init = []
  ∧ DataAggregator.get_top_products top_n DataAggregator.init = Some []
  ∧ DataAggregator.get_anomaly_records top_k DataAggregator.init = []
  ∧ (∀ chunks : list DataFrame,
       (∀ chunk t, chunk ∈ chunks →
                   (DataCleaner.clean_chunk chunk t).1 = []) →
       (DataPipeline.run chunks).2 = DataAggregator.init).
Proof.
  repeat split. intros chunks Hall.
  exact (run_absorbs_nothing chunks
           (DataQualityIssues.init, DataAggregator.init) Hall).
Qed.

End EmptyAggregator.

(** * The caller's frame *)

Section HeapClaims.
Context `{Parsers}.

Import Heap.

Lemma bind_Some {A B} (m : Prog A) (k : A → Prog B) s x s' :
  m s = Some (x, s') → (m ≫= k) s = k x s'.
Proof. intros Hm. unfold mbind, Prog_bind. rewrite Hm. reflexivity. Qed.

Lemma read_Some (ref : nat) (σ : Store) (t : Tally) (df : DataFrame) :
  σ !! ref = Some df → read ref (σ, t) = Some (df, (σ, t)).
Proof. intros Hσ. unfold read. cbn. rewrite Hσ. reflexivity. Qed.

Lemma returns_new_Some (method : DataFrame → Cleaner DataFrame) (ref : nat)
    (σ : Store) (t : Tally) (df : DataFrame) :
  σ !! ref = Some df →
  returns_new method ref (σ, t)
  = Some (fresh (dom σ),
          (<[fresh (dom σ) := (method df t).1]> σ, (method df t).2)).
Proof.
  intros Hσ. unfold returns_new.
  rewrite (bind_Some _ _ _ _ _ (read_Some ref σ t df Hσ)).
  unfold mbind, Prog_bind, lift, alloc. cbn.
  destruct (method df t). reflexivity.
Qed.

Lemma in_place_Some (method : DataFrame → Cleaner DataFrame) (ref : nat)
    (σ : Store) (t : Tally) (df : DataFrame) :
  σ !! ref = Some df →
  in_place method ref (σ, t)
  = Some (ref, (<[ref := (method df t).1]> σ, (method df t).2)).
Proof.
  intros Hσ. unfold in_place.
  rewrite (bind_Some _ _ _ _ _ (read_Some ref σ t df Hσ)).
  unfold mbind, Prog_bind, lift, write, mret, Prog_ret. cbn.
  destruct (method df t). reflexivity.
Qed.

Lemma preserved_refl (σ : Store) : preserved σ σ.
Proof. intros r _. reflexivity. Qed.

Lemma preserved_fresh (σ σ' : Store) (df : DataFrame) :
  preserved σ σ' → preserved σ (<[fresh (dom σ') := df]> σ').
Proof.
  intros Hp r Hr. rewrite lookup_insert_ne; [apply Hp, Hr|].
  intros <-. pose proof (is_fresh (dom σ')) as Hf.
  apply Hf, elem_of_dom. rewrite (Hp _ Hr). exact Hr.
Qed.

Lemma lift_Some {A} (m : Cleaner A) (σ : Store) (t t' : Tally) (x : A) :
  m t = (x, t') → lift m (σ, t) = Some (x, (σ, t')).
Proof. intros Hm. unfold lift. cbn. rewrite Hm. reflexivity. Qed.

Lemma returns_new_run (method : DataFrame → Cleaner DataFrame) (ref : nat)
    (σ : Store) (t t' : Tally) (df df' : DataFrame) :
  σ !! ref = Some df → method df t = (df', t') →
  returns_new method ref (σ, t)
  = Some (fresh (dom σ), (<[fresh (dom σ) := df']> σ, t')).
Proof.
  intros Hσ Hm. rewrite (returns_new_Some method ref σ t df Hσ), Hm.
  reflexivity.
Qed.

Lemma in_place_run (method : DataFrame → Cleaner DataFrame) (ref : nat)
    (σ : Store) (t t' : Tally) (df df' : DataFrame) :
  method df t = (df', t') →
  in_place method ref (<[ref := df]> σ, t)
  = Some (ref, (<[ref := df']> σ, t')).
Proof.
  intros Hm.
  rewrite (in_place_Some method ref _ t df (lookup_insert_eq _ _ _)), Hm.
  cbn [fst snd]. rewrite insert_insert_eq. reflexivity.
Qed.

(** C10. [clean_chunk] leaves the frame it is given as it was: the frame
    it returns is a new object, and every frame of the store before the
    call, the input among them, holds the same rows after it. *)
Theorem C10_input_frame_unchanged (σ : Store) (t : Tally) (df : nat)
    (frame : DataFrame) :
  σ !! df = Some frame →
  ∃ df_clean σ' t',
    Heap.clean_chunk df (σ, t) = Some (df_clean, (σ', t'))
    ∧ σ' !! df = Some frame
    ∧ preserved σ σ'
    ∧ df_clean ≠ df
    ∧ σ' !! df_clean = Some (DataCleaner.clean_chunk frame t).1
    ∧ t' = (DataCleaner.clean_chunk frame t).2.
Proof.
  intros Hdf.
  destruct (add_issue "total_rows_processed" (len frame) t)
    as [[] t0] eqn:E0.
  destruct (DataCleaner._remove_duplicates frame t0) as [d1 t1] eqn:E1.
  destruct (DataCleaner._clean_quantity d1 t1) as [d2 t2] eqn:E2.
  destruct (DataCleaner._clean_price d2 t2) as [d3 t3] eqn:E3.
  destruct (DataCleaner._clean_discount d3 t3) as [d4 t4] eqn:E4.
  destruct (DataCleaner._clean_dates d4 t4) as [d5 t5] eqn:E5.
  destruct (DataCleaner._normalize_region d5 t5) as [d6 t6] eqn:E6.
  destruct (DataCleaner._normalize_category d6 t6) as [d7 t7] eqn:E7.
  destruct (DataCleaner._calculate_revenue d7 t7) as [d8 t8] eqn:E8.
  destruct (DataCleaner._handle_missing_values d8 t8) as [d9 t9] eqn:E9.
  destruct (add_issue "total_rows_cleaned" (len d9) t9) as [[] t10] eqn:E10.
  assert (Hpure : DataCleaner.clean_chunk frame t = (d9, t10)).
  { unfold DataCleaner.clean_chunk, mbind, Cleaner_bind, mret, Cleaner_ret.
    rewrite E0. cbv beta iota. rewrite E1. cbv beta iota.
    rewrite E2. cbv beta iota. rewrite E3. cbv beta iota.
    rewrite E4. cbv beta iota. rewrite E5. cbv beta iota.
    rewrite E6. cbv beta iota. rewrite E7. cbv beta iota.
    rewrite E8. cbv beta iota. rewrite E9. cbv beta iota.
    rewrite E10. reflexivity. }
  rewrite Hpure. cbn [fst snd].
  pose (σ1 := <[fresh (dom σ) := frame]> σ).
  pose (σ2 := <[fresh (dom σ1) := d8]> σ1).
  exists (fresh (dom σ2)), (<[fresh (dom σ2) := d9]> σ2), t10.
  assert (Hp2 : preserved σ σ2)
    by apply preserved_fresh, preserved_fresh, preserved_refl.
  assert (Hp : preserved σ (<[fresh (dom σ2) := d9]> σ2))
    by apply preserved_fresh, Hp2.
  split; [|split; [|split; [|split; [|split]]]].
  - unfold Heap.clean_chunk.
    rewrite (bind_Some _ _ _ _ _ (read_Some df σ t frame Hdf)).
    rewrite (bind_Some _ _ _ _ _ (lift_Some _ σ t t0 tt E0)).
    rewrite (bind_Some _ _ _ _ _
               (returns_new_run mret df σ t0 t0 frame frame Hdf eq_refl)).
    fold σ1.
    rewrite (bind_Some _ _ _ _ _
               (returns_new_run DataCleaner._remove_duplicates
                  (fresh (dom σ)) σ1 t0 t1 frame d1
                  (lookup_insert_eq _ _ _) E1)).
    rewrite (bind_Some _ _ _ _ _ (in_place_run _ _ σ1 t1 t2 d1 d2 E2)).
    rewrite (bind_Some _ _ _ _ _ (in_place_run _ _ σ1 t2 t3 d2 d3 E3)).
    rewrite (bind_Some _ _ _ _ _ (in_place_run _ _ σ1 t3 t4 d3 d4 E4)).
    rewrite (bind_Some _ _ _ _ _ (in_place_run _ _ σ1 t4 t5 d4 d5 E5)).
    rewrite (bind_Some _ _ _ _ _ (in_place_run _ _ σ1 t5 t6 d5 d6 E6)).
    rewrite (bind_Some _ _ _ _ _ (in_place_run _ _ σ1 t6 t7 d6 d7 E7)).
    rewrite (bind_Some _ _ _ _ _ (in_place_run _ _ σ1 t7 t8 d7 d8 E8)).
    fold σ2.
    rewrite (bind_Some _ _ _ _ _
               (returns_new_run DataCleaner._handle_missing_values
                  (fresh (dom σ1)) σ2 t8 t9 d8 d9
                  (lookup_insert_eq _ _ _) E9)).
    rewrite (bind_Some _ _ _ _ _
               (read_Some (fresh (dom σ2)) _ t9 d9 (lookup_insert_eq _ _ _))).
    rewrite (bind_Some _ _ _ _ _ (lift_Some _ _ t9 t10 tt E10)).
    reflexivity.
  - rewrite (Hp df) by (rewrite Hdf; eauto). exact Hdf.
  - exact Hp.
  - intros Heq. apply (is_fresh (dom σ2)). apply elem_of_dom.
    rewrite Heq, (Hp2 df) by (rewrite Hdf; eauto).
    rewrite Hdf. eauto.
  - apply lookup_insert_eq.
  - reflexivity.
Qed.

End HeapClaims.

(** A store that holds one frame of three rows. *)
Lemma C10_input_frame_unchanged_witness :
  let frame := [Examples.ten_at_twenty; Examples.repeated_order;
                Examples.bad_discount] in
  let σ : gmap nat DataFrame := {[ 0%nat := frame ]} in
  let t := DataQualityIssues.init in
  ∃ df_clean σ' t',
    @Heap.clean_chunk Reference.parsers 0%nat (σ, t)
    = Some (df_clean, (σ', t'))
    ∧ σ' !! 0%nat = Some frame
    ∧ Heap.preserved σ σ'
    ∧ df_clean ≠ 0%nat
    ∧ σ' !! df_clean
      = Some (@DataCleaner.clean_chunk Reference.parsers frame t).1
    ∧ t' = (@DataCleaner.clean_chunk Reference.parsers frame t).2.
Proof.
  cbn zeta.
  apply (@C10_input_frame_unchanged Reference.parsers).
  reflexivity.
Defined.

(** * Sorting *)

Section SortFacts.
Context {A K : Type} (le : K → K → bool) (key : A → K).





Section Order.
Hypothesis le_total : ∀ a b, le a b = true ∨ le b a = true.
Hypothesis le_trans : ∀ a b c, le a b = true → le b c = true → le a c = true.






End Order.
End SortFacts.

(** * Sums and the order on numbers *)

Section NumFacts.













End NumFacts.

(** * Grouping *)

Section GroupFacts.
Context {A K : Type} `{EqDecision K}.







End GroupFacts.

(** * The monthly summary *)

Section MonthlyFacts.

Import DataAggregator.


(** The per-chunk monthly frame has one row per month of the chunk, with
    the chunk's sums for that month. *)
Lemma monthly_chunk_totals (b : DataFrame) :
  chunk_totals <$> monthly_chunk b = WholeFile.monthly_totals b.
Proof.
  unfold monthly_chunk, WholeFile.monthly_totals, groupby.
  rewrite <- !list_fmap_compose. reflexivity.
Qed.











End MonthlyFacts.

(** * Dicts *)

Section DictFacts.
Context {V : Type}.





End DictFacts.

(** * The product totals *)

Section ProductFacts.

Import DataAggregator.











End ProductFacts.

(** * The top products *)

Section TopProductFacts.

Import DataAggregator.









End TopProductFacts.

(** * Re-chunking *)

Section Rechunking.

Import DataAggregator.




Section Pipeline.
Context `{Parsers}.

Import CleanSpec.



End Pipeline.
End Rechunking.

(** * Re-chunking: claims *)

Section ReaderFacts.

Import ChunkedCSVReader.

Lemma chunks_of_concat (fuel chunk_size : nat) (rows : DataFrame) :
  (0 < chunk_size)%nat → (length rows ≤ fuel)%nat →
  concat (chunks_of fuel chunk_size rows) = rows.
Proof.
  intros Hpos. revert rows. induction fuel as [|fuel IH]; intros rows Hlen.
  - destruct rows; [reflexivity|cbn in Hlen; lia].
  - destruct rows as [|r rows]; [reflexivity|].
    cbn [chunks_of concat]. rewrite IH.
    + apply take_drop.
    + rewrite length_drop. cbn [length] in *. lia.
Qed.

(** The chunks the reader yields are a partition of the rows of the file,
    whatever the chunk size. *)
Lemma read_chunks_concat (chunk_size : positive) (rows : DataFrame) :
  concat (read_chunks chunk_size rows) = rows.
Proof. apply chunks_of_concat; lia. Qed.

End ReaderFacts.

Section RechunkingClaims.
Context `{Parsers}.

Import DataAggregator CleanSpec.


End RechunkingClaims.



(** * Further properties of the cleaner *)

Section RangeFacts.

Lemma ltb_lt (x y : Qc) : Num.ltb x y = true ↔ (x < y)%Qc.
Proof. unfold Num.ltb. apply Z.ltb_lt. Qed.

Lemma ltb_ge (x y : Qc) : Num.ltb x y = false ↔ (y ≤ x)%Qc.
Proof.
  split.
  - intros Hf. apply Qcnot_lt_le. intros Hlt. apply ltb_lt in Hlt. congruence.
  - intros Hle. destruct (Num.ltb x y) eqn:Hlt; [|reflexivity].
    apply ltb_lt in Hlt. exfalso. exact (Qcle_not_lt _ _ Hle Hlt).
Qed.

Lemma in_range (lo hi q : Qc) :
  DataCleaner.out_of_range lo hi (Some q) = false ↔ (lo ≤ q)%Qc ∧ (q ≤ hi)%Qc.
Proof.
  unfold DataCleaner.out_of_range.
  rewrite orb_false_iff, !ltb_ge. reflexivity.
Qed.

Lemma mask_sum_fmap {A B} (f : A → B) (mask : A → bool) (mask' : B → bool)
    (l : list A) :
  (∀ x, mask x = mask' (f x)) → mask_sum mask l = mask_sum mask' (f <$> l).
Proof.
  intros Hm. unfold mask_sum, len. do 2 f_equal.
  induction l as [|x l IH]; [reflexivity|].
  rewrite fmap_cons, !filter_cons, <- Hm.
  destruct (decide (mask x = true)); cbn [length]; rewrite IH; reflexivity.
Qed.


Lemma Forall2_fmap_self {A} (f : A → A) (P : A → A → Prop) (l : list A) :
  (∀ x, P x (f x)) → Forall2 P l (f <$> l).
Proof.
  intros HP. induction l as [|x l IH]; [constructor|].
  rewrite fmap_cons. constructor; [apply HP|exact IH].
Qed.

(** The tally after a method that adds one count. *)
Lemma counted_tally {A} (k : string) (c : Z) (x : A) (t : Tally) :
  0 ≤ c →
  ((add_issue_if_positive k c ;; mret x) t).2 !! k
  = (fun v => v + c) <$> t !! k.
Proof.
  intros Hc. rewrite then_ret_tally, add_issue_if_positive_eq by exact Hc.
  cbn [snd]. rewrite lookup_add_issue.
  destruct (t !! k); [|reflexivity]. cbn.
  destruct (decide (k = k)); [reflexivity|congruence].
Qed.

End RangeFacts.

Section CleanerExtras.
Context `{Parsers}.

Import DataCleaner CleanSpec.

(** X1. Every record of a cleaned batch has an order id, a quantity within
    [MIN_QUANTITY, MAX_QUANTITY], a price within [MIN_PRICE, MAX_PRICE], a
    discount within [MIN_DISCOUNT, MAX_DISCOUNT] and a parsed date. *)
Theorem X1_cleaned_record_within_bounds (df : DataFrame) (t : Tally) (r : Row) :
  r ∈ (clean_chunk df t).1 →
  (∃ id, order_id r = Some id)
  ∧ (∃ q, quantity r = CNum q
          ∧ (Settings.MIN_QUANTITY ≤ q)%Qc ∧ (q ≤ Settings.MAX_QUANTITY)%Qc)
  ∧ (∃ p, unit_price r = Some p
          ∧ (Settings.MIN_PRICE ≤ p)%Qc ∧ (p ≤ Settings.MAX_PRICE)%Qc)
  ∧ discount_settled (discount_percent r)
  ∧ (∃ d, sale_date r = DDate d).
Proof.
  rewrite clean_chunk_frame. intros Hr.
  pose proof (cleaned_Clean df) as Hall.
  rewrite Forall_forall in Hall. specialize (Hall r Hr).
  split; [|split; [|split; [|split]]].
  - pose proof (clean_order_id r Hall) as Hid.
    destruct (order_id r) as [id|]; [eauto|congruence].
  - destruct (clean_quantity r Hall) as (q & Hq & Hrange).
    exists q. split; [exact Hq|]. apply in_range, Hrange.
  - pose proof (clean_price r Hall) as Hp. unfold price_invalid in Hp.
    destruct (unit_price r) as [p|]; [|discriminate].
    exists p. split; [reflexivity|]. apply in_range, Hp.
  - pose proof (clean_discount r Hall) as Hd. unfold discount_invalid in Hd.
    destruct (discount_percent r) as [d|]; [|discriminate].
    exists d. split; [reflexivity|]. apply in_range, Hd.
  - apply (clean_date r Hall).
Qed.

(** X2. Cleaning keeps at most one record per order id, and never reorders
    or invents rows: the index labels of the cleaned batch are those of the
    input batch with some left out, in the same order. *)
Theorem X2_cleaned_batch_is_a_selection (df : DataFrame) (t : Tally) :
  NoDup (order_id <$> (clean_chunk df t).1)
  ∧ (label <$> (clean_chunk df t).1) `sublist_of` (label <$> df)
  ∧ len (clean_chunk df t).1 ≤ len df.
Proof.
  rewrite clean_chunk_frame. split; [apply cleaned_NoDup|].
  split; [|apply cleaned_len_le].
  unfold cleaned, dropna.
  assert (Hl : ∀ l : DataFrame,
             label <$> filter (fun r => critical_present r = true)
                              (repair_row <$> l)
             = label <$> filter (fun r => critical_present (repair_row r) = true) l).
  { induction l as [|x l IH]; [reflexivity|].
    rewrite fmap_cons, !filter_cons.
    destruct (decide (critical_present (repair_row x) = true)).
    - rewrite !fmap_cons, IH, repair_row_label. reflexivity.
    - exact IH. }
  rewrite Hl. apply fmap_sublist.
  transitivity (drop_duplicates order_id df).
  - apply sublist_filter.
  - apply drop_duplicates_from_sublist.
Qed.







Lemma quantity_row_cases (r : Row) :
  (quantity_invalid r = true ∧ quantity (quantity_row r) = CNaN)
  ∨ ∃ q, quantity_invalid r = false ∧ to_numeric (quantity r) = Some q
         ∧ quantity (quantity_row r) = CNum q.
Proof.
  unfold quantity_row. destruct (quantity_invalid r) eqn:Hinv.
  - left. split; reflexivity.
  - right. unfold quantity_invalid in Hinv.
    destruct (to_numeric (quantity r)) as [q|] eqn:Hq; [|discriminate].
    exists q. split; [reflexivity|]. split; reflexivity.
Qed.

Lemma date_row_cases (r : Row) :
  (date_invalid r = true ∧ sale_date (date_row r) = DNaT)
  ∨ ∃ d, date_invalid r = false ∧ parse_date (sale_date r) = Some d
         ∧ sale_date (date_row r) = DDate d.
Proof.
  unfold date_invalid, date_row, date_cell.
  destruct (parse_date (sale_date r)) as [d|] eqn:Hd.
  - right. exists d. split; [reflexivity|]. split; reflexivity.
  - left. split; reflexivity.
Qed.

(** X5. Each coercing validator keeps every row and touches its own column
    only.  After [_clean_quantity] a quantity is NaN or a number within
    [MIN_QUANTITY, MAX_QUANTITY]; after [_clean_price] a price is NaN or
    within [MIN_PRICE, MAX_PRICE]; after [_clean_dates] a date is NaT or a
    timestamp, never text.  Each counter grows by exactly the number of
    cells of that column that are missing afterwards, so a cell that was
    already missing before the method is counted as invalid too. *)
Theorem X5_validators_count_missing_cells (df : DataFrame) (t : Tally) :
  let out_q := (_clean_quantity df t).1 in
  let out_p := (_clean_price df t).1 in
  let out_d := (_clean_dates df t).1 in
  (Forall2 (fun r r' => r' = set_quantity (quantity r') r
                        ∧ quantity_settled (quantity r')) df out_q
   ∧ (_clean_quantity df t).2 !! "invalid_quantity"
     = (fun v => v + mask_sum (fun r' => cell_isna (quantity r')) out_q)
         <$> t !! "invalid_quantity")
  ∧ (Forall2 (fun r r' => r' = set_unit_price (unit_price r') r
                          ∧ price_settled (unit_price r')) df out_p
     ∧ (_clean_price df t).2 !! "invalid_price"
       = (fun v => v + mask_sum (fun r' => bool_decide (unit_price r' = None))
                                out_p)
           <$> t !! "invalid_price")
  ∧ (Forall2 (fun r r' => r' = set_sale_date (sale_date r') r
                          ∧ date_settled (sale_date r')) df out_d
     ∧ (_clean_dates df t).2 !! "invalid_date"
       = (fun v => v + mask_sum (fun r' => date_isna (sale_date r')) out_d)
           <$> t !! "invalid_date").
Proof.
  cbn zeta. unfold _clean_quantity, _clean_price, _clean_dates.
  rewrite !then_ret_frame, !counted_tally by apply mask_sum_nonneg.
  split; [|split]; split.
  - apply Forall2_fmap_self. intros r. split; [reflexivity|].
    destruct (quantity_row_cases r) as [[Hinv Hq]|(q & Hinv & Hnum & Hq)];
      rewrite Hq; [left; reflexivity|right].
    exists q. split; [reflexivity|]. apply in_range.
    unfold quantity_invalid in Hinv. rewrite Hnum in Hinv. exact Hinv.
  - rewrite <- (mask_sum_fmap quantity_row quantity_invalid); [reflexivity|].
    intros r.
    destruct (quantity_row_cases r) as [[Hinv Hq]|(q & Hinv & _ & Hq)];
      rewrite Hinv, Hq; reflexivity.
  - apply Forall2_fmap_self. intros r. unfold price_row.
    destruct (price_invalid r) eqn:Hinv.
    + split; [reflexivity|left; reflexivity].
    + split; [destruct r; reflexivity|]. unfold price_invalid in Hinv.
      destruct (unit_price r) as [p|]; [|discriminate].
      right. exists p. split; [reflexivity|]. apply in_range, Hinv.
  - rewrite <- (mask_sum_fmap price_row price_invalid); [reflexivity|].
    intros r. unfold price_row.
    destruct (price_invalid r) eqn:Hinv; [reflexivity|].
    unfold price_invalid in Hinv.
    destruct (unit_price r) as [p|]; [reflexivity|discriminate].
  - apply Forall2_fmap_self. intros r. split; [reflexivity|].
    destruct (date_row_cases r) as [[Hinv Hd]|(d & Hinv & _ & Hd)];
      rewrite Hd; [left; reflexivity|right; eauto].
  - rewrite <- (mask_sum_fmap date_row date_invalid); [reflexivity|].
    intros r.
    destruct (date_row_cases r) as [[Hinv Hd]|(d & Hinv & _ & Hd)];
      rewrite Hinv, Hd; reflexivity.
Qed.

End CleanerExtras.

(** ** Rounding and bounds *)

Section RoundFacts.

Lemma of_Z_le (a b : Z) : a ≤ b → (Num.of_Z a ≤ Num.of_Z b)%Qc.
Proof.
  intros Hab. unfold Qcle, Num.of_Z, Q2Qc, this.
  rewrite !Qred_correct. rewrite <- Zle_Qle. exact Hab.
Qed.

Lemma Qcle_Z_l (a : Z) (x : Qc) :
  (Num.of_Z a ≤ x)%Qc ↔ a * Zpos (Qden x) ≤ Qnum x.
Proof.
  unfold Qcle, Num.of_Z, Q2Qc. cbn [this]. rewrite Qred_correct.
  unfold Qle. cbn [Qnum Qden inject_Z]. rewrite Z.mul_1_r. reflexivity.
Qed.

Lemma Qcle_Z_r (b : Z) (x : Qc) :
  (x ≤ Num.of_Z b)%Qc ↔ Qnum x ≤ b * Zpos (Qden x).
Proof.
  unfold Qcle, Num.of_Z, Q2Qc. cbn [this]. rewrite Qred_correct.
  unfold Qle. cbn [Qnum Qden inject_Z]. rewrite Z.mul_1_r. reflexivity.
Qed.

(** Rounding to the nearest integer stays within integer bounds. *)
Lemma rint_between (a b : Z) (x : Qc) :
  (Num.of_Z a ≤ x)%Qc → (x ≤ Num.of_Z b)%Qc → a ≤ Num.rint x ≤ b.
Proof.
  rewrite Qcle_Z_l, Qcle_Z_r. unfold Num.rint.
  set (n := Qnum x). set (d := Zpos (Qden x)).
  assert (Hd : 0 < d) by (unfold d; lia).
  intros Ha Hb.
  pose proof (Z.div_mod n d ltac:(lia)) as Hdm.
  pose proof (Z.mod_pos_bound n d Hd) as Hr.
  assert (Hlo : a ≤ n / d) by (apply Z.div_le_lower_bound; lia).
  assert (Hhi : n / d ≤ b) by (apply Z.div_le_upper_bound; lia).
  assert (Htop : n / d = b → n mod d = 0) by nia.
  destruct (2 * (n mod d) ?= d) eqn:Hc.
  - apply Z.compare_eq_iff in Hc.
    destruct (Z.even (n / d)); [lia|].
    destruct (decide (n / d = b)) as [Heq|Hne]; [|lia].
    specialize (Htop Heq). lia.
  - lia.
  - apply Z.compare_gt_iff in Hc.
    destruct (decide (n / d = b)) as [Heq|Hne]; [|lia].
    specialize (Htop Heq). lia.
Qed.

Lemma of_Z_mul (a b : Z) : Num.of_Z (a * b) = (Num.of_Z a * Num.of_Z b)%Qc.
Proof.
  unfold Num.of_Z. apply Qc_is_canon. cbn [this Qcmult Q2Qc].
  rewrite !Qred_correct, inject_Z_mult. reflexivity.
Qed.

Lemma Qcdiv_le_compat (x y z : Qc) :
  (Num.of_Z 0 < z)%Qc → (x ≤ y)%Qc → (x / z ≤ y / z)%Qc.
Proof.
  intros Hz Hxy. unfold Qcdiv. apply Qcmult_le_compat_r; [exact Hxy|].
  apply Qclt_le_weak, Qcinv_pos, Hz.
Qed.

Lemma of_Z_div_100 (a : Z) :
  (Num.of_Z (a * 100) / Num.of_Z 100)%Qc = Num.of_Z a.
Proof.
  rewrite of_Z_mul. unfold Qcdiv. rewrite <- Qcmult_assoc, Qcmult_inv_r.
  - apply Qcmult_1_r.
  - discriminate.
Qed.

(** [round(x, 2)] stays within integer bounds. *)
Lemma round2_between (a b : Z) (x : Qc) :
  (Num.of_Z a ≤ x)%Qc → (x ≤ Num.of_Z b)%Qc →
  (Num.of_Z a ≤ Num.round2 x)%Qc ∧ (Num.round2 x ≤ Num.of_Z b)%Qc.
Proof.
  intros Ha Hb. unfold Num.round2.
  assert (H100 : (Num.of_Z 0 ≤ Num.of_Z 100)%Qc) by (apply of_Z_le; lia).
  destruct (rint_between (a * 100) (b * 100) (x * Num.of_Z 100)%Qc)
    as [Hlo Hhi].
  - rewrite of_Z_mul. apply Qcmult_le_compat_r; assumption.
  - rewrite of_Z_mul. apply Qcmult_le_compat_r; assumption.
  - rewrite <- (of_Z_div_100 a), <- (of_Z_div_100 b).
    split; apply Qcdiv_le_compat; try reflexivity; apply of_Z_le; assumption.
Qed.

Lemma Qcmult_between (x y a b : Qc) :
  (Num.of_Z 0 ≤ x)%Qc → (x ≤ a)%Qc → (Num.of_Z 0 ≤ y)%Qc → (y ≤ b)%Qc →
  (Num.of_Z 0 ≤ x * y)%Qc ∧ (x * y ≤ a * b)%Qc.
Proof.
  intros Hx Hxa Hy Hyb. split.
  - assert (H0 : (Num.of_Z 0 * y ≤ x * y)%Qc)
      by (apply Qcmult_le_compat_r; assumption).
    rewrite Qcmult_0_l in H0. exact H0.
  - transitivity (a * y)%Qc.
    + apply Qcmult_le_compat_r; assumption.
    + rewrite (Qcmult_comm a y), (Qcmult_comm a b).
      apply Qcmult_le_compat_r; [assumption|].
      transitivity x; assumption.
Qed.

(** [cleaned / processed * 100] lies between 0 and 100. *)
Lemma ratio_between (c p : Z) :
  0 ≤ c ≤ p → 0 < p →
  (Num.of_Z 0 ≤ Num.of_Z c / Num.of_Z p * Num.of_Z 100)%Qc
  ∧ (Num.of_Z c / Num.of_Z p * Num.of_Z 100 ≤ Num.of_Z 100)%Qc.
Proof.
  intros Hc Hp.
  assert (Hpos : (Num.of_Z 0 < Num.of_Z p)%Qc).
  { unfold Qclt, Num.of_Z, Q2Qc. cbn [this].
    rewrite !Qred_correct. change (inject_Z 0 < inject_Z p)%Q.
    rewrite <- Zlt_Qlt. exact Hp. }
  assert (Hq0 : (Num.of_Z 0 ≤ Num.of_Z c / Num.of_Z p)%Qc).
  { replace (Num.of_Z 0) with (Num.of_Z 0 / Num.of_Z p)%Qc
      by (unfold Qcdiv; apply Qcmult_0_l).
    apply Qcdiv_le_compat; [exact Hpos|]. apply of_Z_le. lia. }
  assert (Hq1 : (Num.of_Z c / Num.of_Z p ≤ Num.of_Z 1)%Qc).
  { replace (Num.of_Z 1) with (Num.of_Z p / Num.of_Z p)%Qc.
    - apply Qcdiv_le_compat; [exact Hpos|]. apply of_Z_le. lia.
    - unfold Qcdiv. apply Qcmult_inv_r. intros Heq. rewrite Heq in Hpos.
      exact (Qclt_not_eq _ _ Hpos eq_refl). }
  destruct (Qcmult_between (Num.of_Z c / Num.of_Z p) (Num.of_Z 100)
              (Num.of_Z 1) (Num.of_Z 100)) as [Hlo Hhi];
    try assumption; try reflexivity; [apply of_Z_le; lia|].
  split; [exact Hlo|]. etransitivity; [exact Hhi|].
  replace (Num.of_Z 1 * Num.of_Z 100)%Qc with (Num.of_Z 100) by reflexivity.
  reflexivity.
Qed.

Lemma discount_factor_between (d : Qc) :
  (Num.of_Z 0 ≤ d)%Qc → (d ≤ Num.of_Z 100)%Qc →
  (Num.of_Z 0 ≤ Num.of_Z 1 - d / Num.of_Z 100)%Qc
  ∧ (Num.of_Z 1 - d / Num.of_Z 100 ≤ Num.of_Z 1)%Qc.
Proof.
  intros Hlo Hhi.
  assert (H100 : (Num.of_Z 0 < Num.of_Z 100)%Qc) by reflexivity.
  pose proof (Qcdiv_le_compat _ _ _ H100 Hlo) as Hy0.
  pose proof (Qcdiv_le_compat _ _ _ H100 Hhi) as Hy1.
  assert (E0 : (Num.of_Z 0 / Num.of_Z 100)%Qc = Num.of_Z 0) by compute_done.
  assert (E1 : (Num.of_Z 100 / Num.of_Z 100)%Qc = Num.of_Z 1) by compute_done.
  rewrite E0 in Hy0. rewrite E1 in Hy1. clear E0 E1.
  set (y := (d / Num.of_Z 100)%Qc) in *. split.
  - apply (proj1 (Qcle_minus_iff y (Num.of_Z 1))). exact Hy1.
  - unfold Qcminus.
    rewrite <- (Qcplus_0_r (Num.of_Z 1)) at 2.
    apply Qcplus_le_compat; [reflexivity|].
    apply Qcopp_le_compat in Hy0. exact Hy0.
Qed.

(** The rounded revenue of a quantity, price and discount within the
    bounds of [settings.py]. *)
Lemma revenue_between (q p d : Qc) :
  (Num.of_Z 0 ≤ q)%Qc → (q ≤ Num.of_Z 10000)%Qc →
  (Num.of_Z 0 ≤ p)%Qc → (p ≤ Num.of_Z 100000)%Qc →
  (Num.of_Z 0 ≤ d)%Qc → (d ≤ Num.of_Z 100)%Qc →
  (Num.of_Z 0 ≤ Num.round2 (q * p * (Num.of_Z 1 - d / Num.of_Z 100)))%Qc
  ∧ (Num.round2 (q * p * (Num.of_Z 1 - d / Num.of_Z 100))
     ≤ Num.of_Z 1000000000)%Qc.
Proof.
  intros Hq0 Hq1 Hp0 Hp1 Hd0 Hd1.
  destruct (discount_factor_between d Hd0 Hd1) as [Hf0 Hf1].
  destruct (Qcmult_between q p _ _ Hq0 Hq1 Hp0 Hp1) as [Hqp0 Hqp1].
  destruct (Qcmult_between _ _ _ _ Hqp0 Hqp1 Hf0 Hf1) as [Hr0 Hr1].
  apply round2_between; [exact Hr0|].
  etransitivity; [exact Hr1|].
  assert (E : (Num.of_Z 10000 * Num.of_Z 100000 * Num.of_Z 1)%Qc
              = Num.of_Z 1000000000) by compute_done.
  rewrite E. reflexivity.
Qed.

End RoundFacts.

(** ** The quality score at its ends *)

Section ScoreFacts.

Lemma this_of_Z (n : Z) : this (Num.of_Z n) = inject_Z n.
Proof.
  unfold Num.of_Z, Q2Qc. cbn [this]. apply Qred_identity.
  cbn [Qnum Qden inject_Z]. apply Z.gcd_1_r.
Qed.

Lemma rint_of_Z (n : Z) : Num.rint (Num.of_Z n) = n.
Proof.
  unfold Num.rint. rewrite this_of_Z. cbn [Qnum Qden inject_Z].
  rewrite Z.div_1_r, Z.mod_1_r. reflexivity.
Qed.

(** A whole number is its own rounding. *)
Lemma round2_of_Z (n : Z) : Num.round2 (Num.of_Z n) = Num.of_Z n.
Proof.
  unfold Num.round2. rewrite <- of_Z_mul, rint_of_Z. apply of_Z_div_100.
Qed.

Lemma score_of_all (p : Z) :
  0 < p →
  Num.round2 (Num.of_Z p / Num.of_Z p * Num.of_Z 100) = Num.of_Z 100.
Proof.
  intros Hp.
  assert (Hne : Num.of_Z p ≠ Q2Qc 0).
  { intros Heq. apply (f_equal this) in Heq. rewrite this_of_Z in Heq.
    injection Heq as Heq. lia. }
  unfold Qcdiv. rewrite Qcmult_inv_r by exact Hne.
  rewrite Qcmult_1_l. apply round2_of_Z.
Qed.

Lemma score_of_none (p : Z) :
  Num.round2 (Num.of_Z 0 / Num.of_Z p * Num.of_Z 100) = Num.of_Z 0.
Proof.
  unfold Qcdiv. rewrite !Qcmult_0_l. apply (round2_of_Z 0).
Qed.

End ScoreFacts.

(** ** Dates, counters and the report *)

Section RunExtras.
Context `{Parsers}.

Import DataCleaner CleanSpec DataPipeline.


Lemma mask_sum_le {A} (mask : A → bool) (l : list A) :
  mask_sum mask l ≤ len l.
Proof. apply len_filter_le. Qed.

Lemma len_fmap {A B} (f : A → B) (l : list A) : len (f <$> l) = len l.
Proof. unfold len. rewrite length_fmap. reflexivity. Qed.

Lemma delta_missing (df : DataFrame) :
  delta df "missing_values"
  = len (drop_duplicates order_id df) - len (cleaned df).
Proof.
  unfold delta, increments, cleaned, repair_row.
  cbn [foldr String.eqb Ascii.eqb Bool.eqb andb].
  rewrite !len_fmap, <- !list_fmap_compose. unfold compose. lia.
Qed.

Lemma delta_check (df : DataFrame) (k : string) :
  k ∈ checks → delta df k ≤ len (drop_duplicates order_id df).
Proof.
  intros Hk. unfold checks in Hk.
  repeat (apply elem_of_cons in Hk as [->|Hk]);
    [..|apply elem_of_nil in Hk; contradiction];
    unfold delta, increments;
    cbn [foldr String.eqb Ascii.eqb Bool.eqb andb];
    rewrite Z.add_0_r;
    (etransitivity; [apply mask_sum_le|]);
    rewrite ?len_fmap; reflexivity.
Qed.

Lemma accounted_init : accounted DataQualityIssues.init.
Proof.
  exists 0, 0, 0, 0. repeat (split; [reflexivity|]).
  unfold checks. repeat constructor; exists 0; split; (reflexivity || lia).
Qed.

Lemma accounted_clean_chunk (df : DataFrame) (t : Tally) :
  accounted t → accounted (clean_chunk df t).2.
Proof.
  intros (p & c & d & m & Hp & Hc & Hd & Hm & Hsum & Hchecks).
  exists (p + len df), (c + len (cleaned df)),
    (d + (len df - len (drop_duplicates order_id df))),
    (m + (len (drop_duplicates order_id df) - len (cleaned df))).
  rewrite !clean_chunk_tally, Hp, Hc, Hd, Hm, delta_processed, delta_cleaned,
    delta_duplicates, delta_missing.
  repeat (split; [reflexivity|]). split; [lia|].
  rewrite Forall_forall in Hchecks. apply Forall_forall. intros k Hk.
  destruct (Hchecks k Hk) as (v & Hv & Hle).
  exists (v + delta df k). rewrite clean_chunk_tally, Hv.
  split; [reflexivity|]. pose proof (delta_check df k Hk). lia.
Qed.

Lemma run_tally (chunks : list DataFrame) (P : Tally → Prop) :
  P DataQualityIssues.init →
  (∀ df t, P t → P (clean_chunk df t).2) →
  P (run chunks).1.
Proof.
  intros Hinit Hstep. unfold run. rewrite process_chunks_tally. cbn [fst].
  generalize DataQualityIssues.init, Hinit. clear Hinit.
  induction chunks as [|chunk chunks IH]; intros t Ht; [exact Ht|].
  cbn [foldl]. apply IH, Hstep, Ht.
Qed.

Lemma run_processed (chunks : list DataFrame) :
  (run chunks).1 !! "total_rows_processed" = Some (len (concat chunks)).
Proof.
  unfold run. rewrite process_chunks_tally. cbn [fst].
  assert (Hgen : ∀ t p, t !! "total_rows_processed" = Some p →
            foldl (fun t chunk => (clean_chunk chunk t).2) t chunks
              !! "total_rows_processed"
            = Some (p + len (concat chunks))).
  { induction chunks as [|chunk chunks IH]; intros t p Hp; cbn [foldl concat].
    - rewrite Hp. f_equal. unfold len. cbn. lia.
    - rewrite (IH _ (p + len chunk)).
      + f_equal. unfold len. rewrite length_app. lia.
      + rewrite clean_chunk_tally, Hp, delta_processed. reflexivity. }
  rewrite (Hgen _ 0); [f_equal; lia|reflexivity].
Qed.

Lemma run_accounted (chunks : list DataFrame) : accounted (run chunks).1.
Proof.
  apply (run_tally chunks accounted).
  - exact accounted_init.
  - intros df t. apply accounted_clean_chunk.
Qed.

(** X7. After any run of the pipeline every row read is accounted for:
    [total_rows_processed] is the number of rows of all batches, and it
    equals [total_rows_cleaned + duplicate_orders + missing_values]; and
    none of the four validity counters and two normalisation counters
    exceeds the number of rows left after deduplication,
    [total_rows_processed - duplicate_orders]. *)
Theorem X7_every_row_accounted_for (chunks : list DataFrame) :
  let t := (run chunks).1 in
  t !! "total_rows_processed" = Some (len (concat chunks))
  ∧ ∃ p c d m,
      t !! "total_rows_processed" = Some p
      ∧ t !! "total_rows_cleaned" = Some c
      ∧ t !! "duplicate_orders" = Some d
      ∧ t !! "missing_values" = Some m
      ∧ p = c + d + m
      ∧ Forall (fun k => ∃ v, t !! k = Some v ∧ v ≤ p - d) checks.
Proof.
  cbn zeta. split; [apply run_processed|].
  pose proof (run_accounted chunks) as Hacc. exact Hacc.
Qed.

Lemma init_keys (k : string) :
  is_Some (DataQualityIssues.init !! k) ↔ k ∈ counter_names.
Proof.
  split.
  - intros Hsome. destruct (decide (k ∈ counter_names)) as [|Hout]; [done|].
    assert (Hnone : DataQualityIssues.init !! k = None)
      by (apply not_elem_of_list_to_map_1; exact Hout).
    rewrite Hnone in Hsome. exfalso. exact (is_Some_None Hsome).
  - intros Hk. unfold counter_names in Hk.
    repeat (apply elem_of_cons in Hk as [->|Hk]);
      [..|apply elem_of_nil in Hk; contradiction];
      exists 0; reflexivity.
Qed.

Lemma run_keys (chunks : list DataFrame) (k : string) :
  is_Some ((run chunks).1 !! k) ↔ k ∈ counter_names.
Proof.
  rewrite <- init_keys.
  apply (run_tally chunks
           (fun t => is_Some (t !! k) ↔ is_Some (DataQualityIssues.init !! k))).
  - reflexivity.
  - intros df t Ht. rewrite clean_chunk_tally, fmap_is_Some. exact Ht.
Qed.

(** X8. The tally has the ten counters of [DataQualityIssues.__init__] and
    no other, after any run; [clean_chunk] neither adds nor removes a
    counter; and [add_issue] with a name that is not a counter changes
    nothing. *)
Theorem X8_counter_names_are_fixed (chunks : list DataFrame) (df : DataFrame)
    (t : Tally) (k : string) (count : Z) :
  (is_Some ((run chunks).1 !! k) ↔ k ∈ counter_names)
  ∧ (is_Some ((clean_chunk df t).2 !! k) ↔ is_Some (t !! k))
  ∧ (t !! k = None → DataQualityIssues.add_issue k count t = t)
  ∧ (k ∉ counter_names →
     DataQualityIssues.add_issue k count (run chunks).1 = (run chunks).1).
Proof.
  split; [apply run_keys|]. split.
  - rewrite clean_chunk_tally. apply fmap_is_Some.
  - assert (Hnone : ∀ t0 : Tally,
              t0 !! k = None → DataQualityIssues.add_issue k count t0 = t0).
    { intros t0 Hk. unfold DataQualityIssues.add_issue. rewrite Hk.
      reflexivity. }
    split; [apply Hnone|]. intros Hout. apply Hnone.
    apply eq_None_not_Some. rewrite run_keys. exact Hout.
Qed.

Lemma run_tally_ok (chunks : list DataFrame) : tally_ok (run chunks).1.
Proof.
  apply (run_tally chunks tally_ok).
  - exact tally_ok_init.
  - intros df t. apply tally_ok_clean_chunk.
Qed.

(** X9. The quality report of any run is produced; it carries every
    counter of the tally unchanged, [rows_removed] is
    [duplicate_orders + missing_values], and [data_quality_score] is the
    integer 0 when no row was processed and otherwise a number between 0
    and 100: 100 when every row was kept, 0 when none was. *)
Theorem X9_quality_report_contents (chunks : list DataFrame) :
  let t := (run chunks).1 in
  ∃ report p c d m,
    _generate_quality_report t = Ok report
    ∧ t !! "total_rows_processed" = Some p
    ∧ t !! "total_rows_cleaned" = Some c
    ∧ t !! "duplicate_orders" = Some d
    ∧ t !! "missing_values" = Some m
    ∧ (∀ k v, t !! k = Some v → report !! k = Some (PyInt v))
    ∧ report !! "rows_removed" = Some (PyInt (d + m))
    ∧ ((p = 0 ∧ report !! "data_quality_score" = Some (PyInt 0))
       ∨ (0 < p
          ∧ ∃ q, report !! "data_quality_score" = Some (PyFloat q)
                 ∧ (Num.of_Z 0 ≤ q)%Qc ∧ (q ≤ Num.of_Z 100)%Qc
                 ∧ (c = p → q = Num.of_Z 100)
                 ∧ (c = 0 → q = Num.of_Z 0))).
Proof.
  cbn zeta.
  destruct (run_accounted chunks)
    as (p & c & d & m & Hp & Hc & Hd & Hm & Hsum & _).
  destruct (run_tally_ok chunks) as [_ Hnn].
  pose proof (Hnn _ _ Hc) as Hc0. pose proof (Hnn _ _ Hd) as Hd0.
  pose proof (Hnn _ _ Hm) as Hm0.
  unfold _generate_quality_report, getitem, get_quality_report,
    DataQualityIssues.get_report.
  rewrite Hp, Hc, data_quality_score_total.
  eexists _, p, c, d, m. do 3 (split; [reflexivity|]).
  split; [exact Hd|]. split; [exact Hm|]. split; [|split].
  - intros k v Hv.
    assert (Hk : k ∈ counter_names)
      by (apply (proj1 (run_keys chunks k)); eauto).
    rewrite !lookup_insert_ne, lookup_fmap, Hv; [reflexivity|..];
      intros <-; unfold counter_names in Hk;
      repeat (apply elem_of_cons in Hk as [Hk|Hk]; [discriminate|]);
      apply elem_of_nil in Hk; contradiction.
  - rewrite lookup_insert_ne by discriminate. rewrite lookup_insert_eq.
    do 2 f_equal. lia.
  - rewrite lookup_insert_eq.
    destruct (decide (0 < p)) as [Hpos|Hzero].
    + right. split; [exact Hpos|]. eexists. split; [reflexivity|].
      destruct (ratio_between c p) as [Hlo Hhi]; [lia|exact Hpos|].
      destruct (round2_between 0 100 _ Hlo Hhi) as [Hlo' Hhi'].
      split; [exact Hlo'|]. split; [exact Hhi'|]. split.
      * intros ->. apply score_of_all, Hpos.
      * intros ->. apply score_of_none.
    + left. split; [lia|reflexivity].
Qed.

(** X10. The revenue of every record of a cleaned batch is a number between
    0 and [MAX_QUANTITY * MAX_PRICE] = 1 000 000 000: no cleaned record
    has a negative or a missing revenue. *)
Theorem X10_cleaned_revenue_range (df : DataFrame) (t : Tally) (r : Row) :
  r ∈ (clean_chunk df t).1 →
  ∃ v, revenue r = CNum v
       ∧ (Num.of_Z 0 ≤ v)%Qc ∧ (v ≤ Num.of_Z 1000000000)%Qc.
Proof.
  rewrite clean_chunk_frame. intros Hr.
  pose proof (cleaned_Clean df) as Hall.
  rewrite Forall_forall in Hall. specialize (Hall r Hr).
  destruct (clean_quantity r Hall) as (q & Hq & Hqr).
  pose proof (clean_price r Hall) as Hp. unfold price_invalid in Hp.
  pose proof (clean_discount r Hall) as Hd. unfold discount_invalid in Hd.
  pose proof (clean_revenue r Hall) as Hrev.
  destruct (unit_price r) as [p|] eqn:Hup; [|discriminate].
  destruct (discount_percent r) as [d|] eqn:Hdp; [|discriminate].
  rewrite Hq in Hrev. cbn in Hrev.
  apply in_range in Hqr as [Hq0 Hq1]. apply in_range in Hp as [Hp0 Hp1].
  apply in_range in Hd as [Hd0 Hd1].
  eexists. split; [exact Hrev|].
  apply revenue_between; try assumption.
  transitivity Settings.MIN_PRICE; [|exact Hp0].
  apply Qclt_le_weak. reflexivity.
Qed.

End RunExtras.

(** The cleaned row of quantity 10 at price 20 is within the bounds. *)
Lemma X1_cleaned_record_within_bounds_witness :
  (∃ id, order_id Examples.ten_at_twenty_cleaned = Some id)
  ∧ (∃ q, quantity Examples.ten_at_twenty_cleaned = CNum q
          ∧ (Settings.MIN_QUANTITY ≤ q)%Qc ∧ (q ≤ Settings.MAX_QUANTITY)%Qc)
  ∧ (∃ p, unit_price Examples.ten_at_twenty_cleaned = Some p
          ∧ (Settings.MIN_PRICE ≤ p)%Qc ∧ (p ≤ Settings.MAX_PRICE)%Qc)
  ∧ discount_settled (discount_percent Examples.ten_at_twenty_cleaned)
  ∧ (∃ d, sale_date Examples.ten_at_twenty_cleaned = DDate d).
Proof.
  apply (@X1_cleaned_record_within_bounds Reference.parsers
           [Examples.ten_at_twenty] DataQualityIssues.init).
  compute_done.
Defined.

(** The revenue 180 of the cleaned row of quantity 10 at price 20. *)
Lemma X10_cleaned_revenue_range_witness :
  ∃ v, revenue Examples.ten_at_twenty_cleaned = CNum v
       ∧ (Num.of_Z 0 ≤ v)%Qc ∧ (v ≤ Num.of_Z 1000000000)%Qc.
Proof.
  apply (@X10_cleaned_revenue_range Reference.parsers
           [Examples.ten_at_twenty] DataQualityIssues.init).
  compute_done.
Defined.

(** * The largest rows of a pool of per-batch largest rows *)

Section TopOfPool.
Context {A K : Type} (le : K → K → bool) (key : A → K).






Section Order.
Hypothesis le_total : ∀ a b, le a b = true ∨ le b a = true.
Hypothesis le_trans : ∀ a b c, le a b = true → le b c = true → le a c = true.













End Order.
End TopOfPool.

(** * The anomaly records *)

Section AnomalyFacts.

Import DataAggregator.





End AnomalyFacts.

Section AnomalyExtras.
Context `{Parsers}.

Import DataCleaner CleanSpec DataAggregator.



End AnomalyExtras.


(** * The shape of the top-products report *)

Section TopReportFacts.

Import DataAggregator.







End TopReportFacts.

Section TopReport.

Import DataAggregator.




End TopReport.

(** * The rows of the monthly summary *)

Section MonthlyRows.

Import DataAggregator.






End MonthlyRows.

(** * The order of the months *)

Section MonthOrder.

Import DataAggregator.


Lemma PyStr_leb_refl (s : string) : PyStr.leb s s = true.
Proof.
  induction s as [|a s IH]; [reflexivity|]. cbn [PyStr.leb].
  rewrite Nat.ltb_irrefl. exact IH.
Qed.















End MonthOrder.


(** * Every step of the cleaner is idempotent *)

Section Idempotence.
Context `{Parsers}.

Import DataCleaner CleanSpec.

Lemma quantity_row_idem (r : Row) : quantity_row (quantity_row r) = quantity_row r.
Proof.
  destruct r as [l o pn c q p d rg sd rv].
  unfold quantity_row, quantity_invalid, set_quantity.
  cbn [quantity label order_id product_name category unit_price
         discount_percent region sale_date revenue].
  destruct (to_numeric q) as [v|] eqn:Hv; [|reflexivity].
  destruct (out_of_range Settings.MIN_QUANTITY Settings.MAX_QUANTITY (Some v))
    eqn:Hr; cbn [to_numeric num_cell]; [reflexivity|].
  rewrite Hr. reflexivity.
Qed.

Lemma price_row_idem (r : Row) : price_row (price_row r) = price_row r.
Proof.
  destruct r as [l o pn c q p d rg sd rv].
  unfold price_row, price_invalid, set_unit_price.
  cbn [quantity label order_id product_name category unit_price
         discount_percent region sale_date revenue].
  destruct (out_of_range Settings.MIN_PRICE Settings.MAX_PRICE p) eqn:Hr;
    cbn [unit_price out_of_range]; [reflexivity|].
  rewrite Hr. reflexivity.
Qed.

Lemma discount_row_valid (r : Row) : discount_invalid (discount_row r) = false.
Proof.
  unfold discount_row. destruct (discount_invalid r) eqn:Hinv; [|exact Hinv].
  exact default_discount_valid.
Qed.

Lemma discount_row_idem (r : Row) :
  discount_row (discount_row r) = discount_row r.
Proof.
  unfold discount_row at 1. rewrite discount_row_valid. reflexivity.
Qed.

Lemma date_row_idem (r : Row) : date_row (date_row r) = date_row r.
Proof.
  destruct r as [l o pn c q p d rg sd rv].
  unfold date_row, set_sale_date.
  cbn [quantity label order_id product_name category unit_price
         discount_percent region sale_date revenue].
  destruct (parse_date sd) as [v|]; reflexivity.
Qed.

Lemma fillna_idem (mapping : gmap string string) (v : option string) :
  map_Forall
    (fun _ n => mapping !! PyStr.strip (PyStr.lower n) = Some n) mapping →
  renamed mapping (fillna mapping v) = false
  ∧ fillna mapping (fillna mapping v) = fillna mapping v.
Proof.
  intros Hcanon. apply Clean_not_renamed, fillna_settled, Hcanon.
Qed.

Lemma region_row_idem (r : Row) : region_row (region_row r) = region_row r.
Proof.
  unfold region_row at 1.
  replace (region (region_row r))
    with (fillna Settings.REGION_MAPPING (region r)) by reflexivity.
  rewrite (proj2 (fillna_idem _ (region r) region_canonical)).
  destruct r; reflexivity.
Qed.

Lemma category_row_idem (r : Row) :
  category_row (category_row r) = category_row r.
Proof.
  unfold category_row at 1.
  replace (category (category_row r))
    with (fillna Settings.CATEGORY_MAPPING (category r)) by reflexivity.
  rewrite (proj2 (fillna_idem _ (category r) category_canonical)).
  destruct r; reflexivity.
Qed.

Lemma revenue_row_idem (r : Row) : revenue_row (revenue_row r) = revenue_row r.
Proof. destruct r; reflexivity. Qed.

Lemma fmap_idem {A} (f : A → A) (l : list A) :
  (∀ x, f (f x) = f x) → f <$> (f <$> l) = f <$> l.
Proof.
  intros Hf. rewrite <- list_fmap_compose. apply list_fmap_ext.
  intros _ x _. apply Hf.
Qed.

(** X15. Every method [clean_chunk] calls is idempotent on the frame:
    applied to its own result it returns it unchanged.  On that second
    application [_remove_duplicates], [_clean_discount],
    [_normalize_region], [_normalize_category], [_calculate_revenue] and
    [_handle_missing_values] leave the tally as it is. *)
Theorem X15_methods_are_idempotent (df : DataFrame) (t t' : Tally) :
  Forall (fun m => (m (m df t).1 t').1 = (m df t).1) methods
  ∧ Forall (fun m => (m (m df t).1 t').2 = t')
      [ _remove_duplicates; _clean_discount; _normalize_region;
        _normalize_category; _calculate_revenue; _handle_missing_values ].
Proof.
  assert (Hdedup : drop_duplicates order_id (drop_duplicates order_id df)
                   = drop_duplicates order_id df).
  { apply drop_duplicates_id. apply (drop_duplicates_from_NoDup order_id). }
  assert (Hdrop : dropna (dropna df) = dropna df).
  { unfold dropna. apply list_filter_filter_l. auto. }
  split.
  - unfold methods.
    repeat apply Forall_cons_2; try apply Forall_nil_2;
      unfold _remove_duplicates, _clean_quantity, _clean_price,
        _clean_discount, _clean_dates, _normalize_region,
        _normalize_category, _calculate_revenue, _handle_missing_values;
      rewrite ?then_ret_frame; cbn [fst mret Cleaner_ret].
    + exact Hdedup.
    + apply fmap_idem, quantity_row_idem.
    + apply fmap_idem, price_row_idem.
    + apply fmap_idem, discount_row_idem.
    + apply fmap_idem, date_row_idem.
    + apply fmap_idem, region_row_idem.
    + apply fmap_idem, category_row_idem.
    + apply fmap_idem, revenue_row_idem.
    + exact Hdrop.
  - repeat apply Forall_cons_2; try apply Forall_nil_2;
      unfold _remove_duplicates, _clean_discount, _normalize_region,
        _normalize_category, _calculate_revenue, _handle_missing_values;
      rewrite ?then_ret_frame, ?then_ret_tally; cbn [snd mret Cleaner_ret].
    + rewrite Hdedup, Z.sub_diag. reflexivity.
    + rewrite mask_sum_zero; [reflexivity|].
      apply Forall_fmap, Forall_forall. intros r _. apply discount_row_valid.
    + rewrite mask_sum_zero; [reflexivity|].
      apply Forall_fmap, Forall_forall. intros r _.
      apply (fillna_idem _ (region r) region_canonical).
    + rewrite mask_sum_zero; [reflexivity|].
      apply Forall_fmap, Forall_forall. intros r _.
      apply (fillna_idem _ (category r) category_canonical).
    + reflexivity.
    + rewrite Hdrop, Z.sub_diag. reflexivity.
Qed.

End Idempotence.

(** * The revenue column of the input *)

Section InputRevenue.
Context `{Parsers}.

Import DataCleaner CleanSpec.

Lemma drop_duplicates_from_fmap {A K} `{EqDecision K} (key : A → K)
    (f : A → A) (seen : list K) (l : list A) :
  (∀ x, key (f x) = key x) →
  drop_duplicates_from key seen (f <$> l)
  = f <$> drop_duplicates_from key seen l.
Proof.
  intros Hkey. revert seen. induction l as [|x l IH]; intros seen;
    [reflexivity|].
  rewrite fmap_cons. cbn [drop_duplicates_from]. rewrite Hkey.
  destruct (decide (key x ∈ seen)); [apply IH|].
  rewrite fmap_cons, IH. reflexivity.
Qed.

Lemma fmap_comm {A} (f g : A → A) (l : list A) :
  (∀ x, f (g x) = g (f x)) → f <$> (g <$> l) = g <$> (f <$> l).
Proof.
  intros Hfg. rewrite <- !list_fmap_compose. apply list_fmap_ext.
  intros _ x _. apply Hfg.
Qed.

Lemma mask_sum_blank {A} (mask : A → bool) (g : A → A) (l : list A) :
  (∀ x, mask (g x) = mask x) → mask_sum mask (g <$> l) = mask_sum mask l.
Proof.
  intros Hm. symmetry. apply mask_sum_fmap. intros x. symmetry. apply Hm.
Qed.

(** X16. [clean_chunk] never reads the [revenue] column of its input: the
    cleaned batch and the tally are those of the batch with that column
    blanked, whatever the column held. *)
Theorem X16_input_revenue_is_ignored (df : DataFrame) (t : Tally) :
  clean_chunk df t = clean_chunk (set_revenue CNaN <$> df) t.
Proof.
  set (g := set_revenue CNaN).
  assert (Hq : ∀ r, quantity_row (g r) = g (quantity_row r))
    by (intros r; destruct r; reflexivity).
  assert (Hp : ∀ r, price_row (g r) = g (price_row r)).
  { intros r. unfold price_row.
    replace (price_invalid (g r)) with (price_invalid r)
      by (destruct r; reflexivity).
    destruct (price_invalid r); destruct r; reflexivity. }
  assert (Hd : ∀ r, discount_row (g r) = g (discount_row r)).
  { intros r. unfold discount_row.
    replace (discount_invalid (g r)) with (discount_invalid r)
      by (destruct r; reflexivity).
    destruct (discount_invalid r); destruct r; reflexivity. }
  assert (Hdt : ∀ r, date_row (g r) = g (date_row r))
    by (intros r; destruct r; reflexivity).
  assert (Hrg : ∀ r, region_row (g r) = g (region_row r))
    by (intros r; destruct r; reflexivity).
  assert (Hc : ∀ r, category_row (g r) = g (category_row r))
    by (intros r; destruct r; reflexivity).
  assert (Hrev : ∀ r, revenue_row (g r) = revenue_row r)
    by (intros r; destruct r; reflexivity).
  assert (Hdd : drop_duplicates order_id (g <$> df)
                = g <$> drop_duplicates order_id df).
  { apply drop_duplicates_from_fmap. intros r. destruct r; reflexivity. }
  assert (Hlast : ∀ l : DataFrame, revenue_row <$> (g <$> l) = revenue_row <$> l).
  { intros l. rewrite <- list_fmap_compose. apply list_fmap_ext.
    intros _ r _. apply Hrev. }
  rewrite !clean_chunk_eq. f_equal.
  - unfold cleaned, repair_row. rewrite Hdd.
    rewrite <- !(list_fmap_compose g). f_equal. apply list_fmap_ext.
    intros _ r _. unfold compose.
    rewrite Hq, Hp, Hd, Hdt, Hrg, Hc, Hrev. reflexivity.
  - f_equal. unfold increments. cbn zeta. rewrite Hdd.
    rewrite (fmap_comm quantity_row g) by exact Hq.
    rewrite (fmap_comm price_row g) by exact Hp.
    rewrite (fmap_comm discount_row g) by exact Hd.
    rewrite (fmap_comm date_row g) by exact Hdt.
    rewrite (fmap_comm region_row g) by exact Hrg.
    rewrite (fmap_comm category_row g) by exact Hc.
    rewrite Hlast, !len_fmap.
    rewrite !(mask_sum_blank _ g) by (intros r; destruct r; reflexivity).
    reflexivity.
Qed.

End InputRevenue.

(** * Rows without an order id *)

Section MissingOrderId.
Context `{Parsers}.

Import DataCleaner CleanSpec.

Section Keys.
Context {A K : Type} `{EqDecision K} (key : A → K).





End Keys.





End MissingOrderId.

(** * The tally does not depend on the chunking *)

Section TallyRechunking.
Context `{Parsers}.

Import DataCleaner CleanSpec DataPipeline.






End TallyRechunking.


(** * The chunks of the reader *)

Section ReaderChunks.

Import ChunkedCSVReader.

Lemma chunks_of_lookup (fuel size : nat) (rows : DataFrame) (i : nat) :
  (0 < size)%nat → (length rows ≤ fuel)%nat →
  chunks_of fuel size rows !! i
  = if decide (i * size < length rows)%nat
    then Some (take size (drop (i * size) rows)) else None.
Proof.
  intros Hpos. revert rows i.
  induction fuel as [|fuel IH]; intros rows i Hlen.
  - destruct rows; [|cbn in Hlen; lia].
    destruct (decide (i * size < length (@nil Row))%nat) as [Hlt|_];
      [cbn in Hlt; lia|reflexivity].
  - destruct rows as [|r rows].
    + destruct (decide (i * size < length (@nil Row))%nat) as [Hlt|_];
        [cbn in Hlt; lia|reflexivity].
    + cbn [chunks_of]. destruct i as [|i].
      * destruct (decide (0 * size < length (r :: rows))%nat) as [_|Hn];
          [reflexivity|cbn in Hn; lia].
      * cbn [lookup list_lookup]. rewrite IH.
        -- rewrite length_drop, drop_drop.
           replace (size + i * size)%nat with (S i * size)%nat by lia.
           destruct (decide (i * size < length (r :: rows) - size)%nat);
             destruct (decide (S i * size < length (r :: rows))%nat);
             try reflexivity; lia.
        -- rewrite length_drop. cbn [length] in *. lia.
Qed.

Lemma foldl_len_concat (chunks : list DataFrame) (n : Z) :
  foldl (fun row_count chunk => row_count + len chunk) n chunks
  = n + len (concat chunks).
Proof.
  revert n. induction chunks as [|c chunks IH]; intros n; cbn [foldl concat].
  - unfold len. cbn. lia.
  - rewrite IH. unfold len. rewrite length_app. lia.
Qed.

Lemma foldl_yield_chunk (chunks : list DataFrame) (r : ReaderCounters.t) :
  foldl ReaderCounters.yield_chunk r chunks
  = ReaderCounters.mk
      (ReaderCounters.total_rows r + len (concat chunks))
      (ReaderCounters.chunks_processed r + len chunks).
Proof.
  revert r. induction chunks as [|c chunks IH]; intros r; cbn [foldl concat].
  - destruct r. unfold len. cbn. f_equal; lia.
  - rewrite IH. unfold ReaderCounters.yield_chunk, len.
    cbn [ReaderCounters.total_rows ReaderCounters.chunks_processed length].
    rewrite length_app. f_equal; lia.
Qed.

(** X19. [read_chunks] yields the rows of a file that has rows in
    consecutive chunks: chunk [i] holds the rows from [i * chunk_size] on,
    [chunk_size] of them or those left; no chunk is empty and there are
    [ceil(rows / chunk_size)] chunks.  Once all are read, [total_rows] has
    grown by the number of rows and [chunks_processed] by the number of
    chunks, and [estimate_total_rows] is the number of rows. *)
Theorem X19_reader_chunks_and_counters (chunk_size : positive)
    (rows : DataFrame) (r : ReaderCounters.t) :
  rows ≠ [] →
  let size := Pos.to_nat chunk_size in
  let chunks := (ReaderCounters.read_chunks chunk_size rows r).1 in
  let r' := (ReaderCounters.read_chunks chunk_size rows r).2 in
  (∀ i, chunks !! i
        = if decide (i * size < length rows)%nat
          then Some (take size (drop (i * size) rows)) else None)
  ∧ Forall (fun c => 0 < len c ≤ Z.pos chunk_size) chunks
  ∧ len chunks = (len rows + Z.pos chunk_size - 1) / Z.pos chunk_size
  ∧ ReaderCounters.total_rows r' = ReaderCounters.total_rows r + len rows
  ∧ ReaderCounters.chunks_processed r'
    = ReaderCounters.chunks_processed r + len chunks
  ∧ ReaderCounters.estimate_total_rows chunk_size rows = len rows.
Proof.
  intros _. cbn zeta. unfold ReaderCounters.read_chunks. cbn [fst snd].
  set (size := Pos.to_nat chunk_size).
  assert (Hpos : (0 < size)%nat) by (unfold size; lia).
  assert (Hlookup : ∀ i, read_chunks chunk_size rows !! i
            = if decide (i * size < length rows)%nat
              then Some (take size (drop (i * size) rows)) else None).
  { intros i. apply chunks_of_lookup; [exact Hpos|lia]. }
  split; [exact Hlookup|]. split; [|split].
  - apply Forall_forall. intros c Hc.
    apply list_elem_of_lookup in Hc as [i Hi]. rewrite Hlookup in Hi.
    destruct (decide (i * size < length rows)%nat) as [Hlt|]; [|discriminate].
    injection Hi as <-. unfold len.
    rewrite length_take, length_drop. lia.
  - set (m := Z.to_nat ((len rows + Z.pos chunk_size - 1) / Z.pos chunk_size)).
    assert (Hdiv : 0 ≤ (len rows + Z.pos chunk_size - 1) / Z.pos chunk_size)
      by (apply Z.div_pos; unfold len; lia).
    pose proof (Z.div_mod (len rows + Z.pos chunk_size - 1) (Z.pos chunk_size)
                  ltac:(lia)) as Hdm.
    pose proof (Z.mod_pos_bound (len rows + Z.pos chunk_size - 1)
                  (Z.pos chunk_size) ltac:(lia)) as Hmod.
    assert (Hsize : Z.of_nat size = Z.pos chunk_size) by (unfold size; lia).
    assert (Hm : Z.of_nat m
                 = (len rows + Z.pos chunk_size - 1) / Z.pos chunk_size)
      by (unfold m; lia).
    assert (Hnone : read_chunks chunk_size rows !! m = None).
    { rewrite Hlookup.
      destruct (decide (m * size < length rows)%nat) as [Hlt|]; [|reflexivity].
      exfalso. unfold len in *. nia. }
    assert (Hsome : ∀ i, (i < m)%nat →
              is_Some (read_chunks chunk_size rows !! i)).
    { intros i Hi. rewrite Hlookup.
      destruct (decide (i * size < length rows)%nat) as [|Hge]; [eauto|].
      exfalso. unfold len in *. nia. }
    apply lookup_ge_None in Hnone.
    assert (Hge : (m ≤ length (read_chunks chunk_size rows))%nat).
    { destruct m as [|m']; [lia|].
      pose proof (Hsome m' ltac:(lia)) as Hs.
      apply lookup_lt_is_Some in Hs. lia. }
    unfold len at 1. lia.
  - rewrite foldl_yield_chunk. cbn [ReaderCounters.total_rows
                                      ReaderCounters.chunks_processed].
    unfold ReaderCounters.estimate_total_rows.
    rewrite foldl_len_concat, read_chunks_concat. auto with lia.
Qed.

End ReaderChunks.

(** Three rows in chunks of two. *)
Lemma X19_reader_chunks_and_counters_witness :
  (∀ i,
     (ReaderCounters.read_chunks 2 Examples.three_discounts
        ReaderCounters.init).1 !! i
     = if decide (i * Pos.to_nat 2 < length Examples.three_discounts)%nat
       then Some (take (Pos.to_nat 2)
                    (drop (i * Pos.to_nat 2) Examples.three_discounts))
       else None)
  ∧ Forall (fun c => 0 < len c ≤ 2)
      (ReaderCounters.read_chunks 2 Examples.three_discounts
         ReaderCounters.init).1
  ∧ len (ReaderCounters.read_chunks 2 Examples.three_discounts
           ReaderCounters.init).1
    = (len Examples.three_discounts + 2 - 1) / 2
  ∧ ReaderCounters.total_rows
      (ReaderCounters.read_chunks 2 Examples.three_discounts
         ReaderCounters.init).2
    = ReaderCounters.total_rows ReaderCounters.init
      + len Examples.three_discounts
  ∧ ReaderCounters.chunks_processed
      (ReaderCounters.read_chunks 2 Examples.three_discounts
         ReaderCounters.init).2
    = ReaderCounters.chunks_processed ReaderCounters.init
      + len (ReaderCounters.read_chunks 2 Examples.three_discounts
               ReaderCounters.init).1
  ∧ ReaderCounters.estimate_total_rows 2 Examples.three_discounts
    = len Examples.three_discounts.
Proof.
  apply (X19_reader_chunks_and_counters 2 Examples.three_discounts
           ReaderCounters.init).
  discriminate.
Defined.

(** * The state of the aggregator *)

Section AggregatorState.

Import DataAggregator.



End AggregatorState.
